(** * AutoRev human-evaluation front end: a shallow embedding of [app.py]

    The development follows the script top to bottom: Python strings and the
    few [str] / [re] primitives the script calls, the JSON payloads, the
    review parser [parse_review], the paper resolver [get_paper_details],
    the blind A/B order binding kept in the session state, the rating form,
    and the submit block with [save_results]. *)

From Stdlib Require Import String Ascii QArith.
From stdpp Require Import gmap list pretty.

Local Open Scope Z_scope.
Local Open Scope N_scope.
Local Open Scope nat_scope.

(** ** Python strings *)

(** A Python [str] is a sequence of Unicode code points. *)
Abbreviation char := N (only parsing).
Abbreviation str := (list N) (only parsing).

(** The code point sequence of an ASCII literal of the script. *)
Definition lit (s : string) : str := N_of_ascii <$> list_ascii_of_string s.

Definition LF : char := 10%N.
Definition HYPHEN : char := 45%N.
Definition UNDERSCORE : char := 95%N.

(** [str.isspace] on one code point, the table of CPython's
    [_PyUnicode_IsWhitespace]. *)
Definition isspace (c : char) : bool :=
  ((9 <=? c) && (c <=? 13) || (28 <=? c) && (c <=? 32)
   || (c =? 133) || (c =? 160) || (c =? 5760)
   || (8192 <=? c) && (c <=? 8202)
   || (c =? 8232) || (c =? 8233) || (c =? 8239) || (c =? 8287)
   || (c =? 12288))%N.

(** Truth value of a string: the empty string is falsy. *)
Definition str_truthy (s : str) : bool :=
  match s with [] => false | _ :: _ => true end.

Section StripAndSplit.

Fixpoint drop_while (p : char → bool) (s : str) : str :=
  match s with
  | [] => []
  | c :: s' => if p c then drop_while p s' else s
  end.

(** [s.lstrip()], [s.rstrip()], [s.strip()]. *)
Definition lstrip (s : str) : str := drop_while isspace s.
Definition rstrip (s : str) : str := reverse (drop_while isspace (reverse s)).
Definition strip (s : str) : str := rstrip (lstrip s).

(** [s.lstrip(chars)] for a one-character [chars]. *)
Definition lstrip_char (c : char) (s : str) : str :=
  drop_while (λ d, bool_decide (d = c)) s.

(** [s.split('\n-')]: cut at every newline directly followed by a hyphen,
    left to right; the pieces cover the whole string, so the result is
    never the empty list.  [cur] is the piece being read. *)
Fixpoint split_newline_hyphen_from (cur : str) (s : str) : list str :=
  match s with
  | [] => [cur]
  | c :: s' =>
      match s' with
      | d :: s'' =>
          if bool_decide (c = LF) && bool_decide (d = HYPHEN)
          then cur :: split_newline_hyphen_from [] s''
          else split_newline_hyphen_from (cur ++ [c]) s'
      | [] => [cur ++ [c]]
      end
  end.

Definition split_newline_hyphen (s : str) : list str :=
  split_newline_hyphen_from [] s.

End StripAndSplit.

(** ** The regular expressions of [parse_review]

    All four patterns are a literal marker followed by a group.  The
    leftmost occurrence of the marker is where [re.search] matches, because
    the rest of each pattern can always match (at the latest at the end of
    the text). *)

(** Leftmost occurrence of the literal [pat] in [s]: the text before it and
    the text after it. *)
Fixpoint find_literal (pat : str) (s : str) : option (str * str) :=
  if decide (pat `prefix_of` s) then Some ([], drop (length pat) s)
  else match s with
       | [] => None
       | c :: s' => prod_map (cons c) id <$> find_literal pat s'
       end.

(** Group 1 of the first three patterns, a marker, a lazy dot-star group
    and a lookahead for [stop] or the end of the text, under [re.DOTALL]:
    the group grows from the end of the marker until [stop] begins or the
    text ends. *)
Definition search_until (marker stop : str) (text : str) : option str :=
  match find_literal marker text with
  | None => None
  | Some (_, rest) =>
      Some (match find_literal stop rest with
            | Some (group, _) => group
            | None => rest
            end)
  end.

(** Group 1 of the last pattern, a marker followed by a greedy dot-star
    group under [re.DOTALL]: everything after the marker. *)
Definition search_rest (marker : str) (text : str) : option str :=
  snd <$> find_literal marker text.

(** ** JSON values, as [json.load] returns them *)

#[warnings="-register-all"] Inductive json : Type :=
  | JNone
  | JBool (b : bool)
  | JInt (n : Z)
  | JFloat (q : Q)
  | JStr (s : str)
  | JList (l : list json)
  | JDict (d : gmap str json).

(** Python truth value, used by [or] and [not]. *)
Definition truthy (v : json) : bool :=
  match v with
  | JNone => false
  | JBool b => b
  | JInt n => negb (n =? 0)%Z
  | JFloat q => negb (Qeq_bool q 0)
  | JStr s => str_truthy s
  | JList l => match l with [] => false | _ => true end
  | JDict d => negb (bool_decide (d = ∅))
  end.

(** [a or b] *)
Definition py_or (a b : json) : json := if truthy a then a else b.

(** [d.get(key, dflt)] on a dict of JSON values. *)
Definition dict_get (d : gmap str json) (key : str) (dflt : json) : json :=
  default dflt (d !! key).

(** ** Review parser *)

Definition SUMMARY : str := lit "Summary".
Definition STRENGTHS : str := lit "Strengths".
Definition WEAKNESSES : str := lit "Weaknesses".
Definition QUESTIONS : str := lit "Questions".

(** The bold markers the patterns look for. *)
Definition bold (name : str) : str := lit "**" ++ name ++ lit "**".

Definition PLACEHOLDER : str := lit "Review not available.".

(** The loop over [raw_points]. *)
Fixpoint clean_points (raw_points : list str) : list str :=
  match raw_points with
  | [] => []
  | point :: rest =>
      let cleaned := strip (lstrip_char HYPHEN (strip point)) in
      if str_truthy cleaned then cleaned :: clean_points rest
      else clean_points rest
  end.

(** One turn of the loop over the three bullet sections. *)
Definition parse_points (sections : gmap str (list str))
    (entry : option str * str) : gmap str (list str) :=
  match entry.1 with
  | Some group =>
      let content := strip group in
      let raw_points := split_newline_hyphen content in
      <[entry.2 := clean_points raw_points]> sections
  | None => sections
  end.

Definition parse_review (review_text : json) : gmap str (list str) :=
  match review_text with
  | JStr text =>
      let sections : gmap str (list str) :=
        {[ SUMMARY := []; STRENGTHS := []; WEAKNESSES := []; QUESTIONS := [] ]} in
      let summary_match := search_until (bold SUMMARY) (bold STRENGTHS) text in
      let strengths_match := search_until (bold STRENGTHS) (bold WEAKNESSES) text in
      let weaknesses_match := search_until (bold WEAKNESSES) (bold QUESTIONS) text in
      let questions_match := search_rest (bold QUESTIONS) text in
      let sections :=
        match summary_match with
        | Some group =>
            if str_truthy (strip group)
            then alter (λ l, l ++ [strip group]) SUMMARY sections
            else sections
        | None => sections
        end in
      foldl parse_points sections
        [(strengths_match, STRENGTHS); (weaknesses_match, WEAKNESSES);
         (questions_match, QUESTIONS)]
  | _ =>
      {[ SUMMARY := [PLACEHOLDER]; STRENGTHS := []; WEAKNESSES := [];
         QUESTIONS := [] ]}
  end.

Definition example_text : str :=
  lit "**Summary**" ++ [LF] ++ lit "A study." ++ [LF] ++
  lit "**Strengths**" ++ [LF] ++ lit "- Point 1" ++ [LF] ++ lit "- Point 2" ++ [LF] ++
  lit "**Weaknesses**" ++ [LF] ++
  lit "**Questions**" ++ [LF] ++ lit "- Q1".

(** ** Assignment resolver *)

(** A [pathlib.Path], kept as the operands of its [/] joins. *)
Abbreviation path := (list str) (only parsing).

Definition BASE_DIR : path := [lit "."].
Definition COLM_PDF_DIR : path := BASE_DIR ++ [lit "pdfs_colm"].
Definition NEURIPS_PDF_DIR : path := BASE_DIR ++ [lit "pdfs_neurips"].

(** The two datasets of a collection, [data_store[c]["5_3"]] and
    [data_store[c]["5_5"]]. *)
Record collection : Type := Collection {
  v5_3 : gmap str json;
  v5_5 : gmap str json
}.

(** The part of [data_store] that [get_paper_details] reads. *)
Record data_store : Type := DataStore {
  colm : collection;
  neurips : collection
}.

(** [key in d] *)
Definition py_in {V} (key : str) (d : gmap str V) : bool :=
  bool_decide (is_Some (d !! key)).

(** The 4-tuple [get_paper_details] returns; [None] in the first and last
    position is [None], in the middle two it is [JNone]. *)
Definition get_paper_details (paper_id : str) (ds : data_store)
    : option path * json * json * option str :=
  if py_in paper_id (v5_3 (colm ds)) || py_in paper_id (v5_5 (colm ds)) then
    (Some (COLM_PDF_DIR ++ [paper_id ++ lit ".pdf"]),
     dict_get (v5_3 (colm ds)) paper_id JNone,
     dict_get (v5_5 (colm ds)) paper_id JNone,
     Some (lit "COLM"))
  else if py_in paper_id (v5_3 (neurips ds)) || py_in paper_id (v5_5 (neurips ds)) then
    (Some (NEURIPS_PDF_DIR ++ [paper_id ++ lit ".pdf"]),
     dict_get (v5_3 (neurips ds)) paper_id JNone,
     dict_get (v5_5 (neurips ds)) paper_id JNone,
     Some (lit "NeurIPS"))
  else (None, JNone, JNone, None).

(** ** Session state and the blind A/B order *)

(** What the script keeps in [st.session_state]: a widget's string, the
    order list, or nothing ([session_state.get] of a missing key). *)
Inductive pyval : Type :=
  | PNone
  | PStr (s : str)
  | PList (l : list str).

(** [st.session_state.get(key)] *)
Definition session_get (ss : gmap str pyval) (key : str) : pyval :=
  default PNone (ss !! key).

Definition V5_3 : str := lit "5_3".
Definition V5_5 : str := lit "5_5".

(** [n.bit_length()] *)
Definition bit_length (n : nat) : nat :=
  match n with
  | 0 => 0
  | S _ => S (Nat.log2 n)
  end.

(** [Random._randbelow(n)].  The random generator is a tape of raw draws;
    [getrandbits(k)] reads one draw and keeps its [k] low bits, and
    [_randbelow] asks for [n.bit_length()] bits again and again until the
    value is below [n].  The loop runs over the tape; an exhausted tape ends
    it with 0. *)
Fixpoint randbelow (n : nat) (tape : list nat) : nat * list nat :=
  match tape with
  | [] => (0, [])
  | raw :: tape' =>
      let r := raw mod 2 ^ bit_length n in
      if r <? n then (r, tape') else randbelow n tape'
  end.

(** [x[i], x[j] = x[j], x[i]] *)
Definition swap (i j : nat) (x : list str) : list str :=
  match x !! i, x !! j with
  | Some a, Some b => <[j := a]> (<[i := b]> x)
  | _, _ => x
  end.

(** [random.shuffle]: for [i] from [len(x) - 1] down to 1, swap [x[i]] with
    [x[randbelow(i + 1)]]. *)
Fixpoint shuffle_from (i : nat) (x : list str) (tape : list nat)
    : list str * list nat :=
  match i with
  | 0 => (x, tape)
  | S i' =>
      let '(j, tape') := randbelow (S i) tape in
      shuffle_from i' (swap i j x) tape'
  end.

Definition shuffle (x : list str) (tape : list nat) : list str * list nat :=
  shuffle_from (length x - 1) x tape.

Definition session_key (selected_paper_id : str) : str :=
  lit "order_" ++ selected_paper_id.

(** Lines 230-236: bind the order on first access, then read it back.  The
    first component is [review_order]; [None] there would be a [KeyError]. *)
Definition bind_order (selected_paper_id : str) (ss : gmap str pyval)
    (tape : list nat) : option pyval * gmap str pyval * list nat :=
  let '(ss1, tape1) :=
    if negb (py_in (session_key selected_paper_id) ss) then
      let '(opts, tape') := shuffle [V5_3; V5_5] tape in
      (<[session_key selected_paper_id := PList opts]> ss, tape')
    else (ss, tape) in
  (ss1 !! session_key selected_paper_id, ss1, tape1).

(** ** Rating form *)

Definition SELECT : str := lit "Select...".

Definition GRADING_OPTIONS : list str :=
  [SELECT; lit "Completely Disagree"; lit "Mostly Disagree";
   lit "Mostly Agree"; lit "Completely Agree"].

Definition INFERENCE_REVIEW : str := lit "inference_review".
Definition PREDICTION : str := lit "prediction".

(** What the script hands to the UI framework, in order. *)
Inductive element : Type :=
  | Markdown (body : str)
  | Selectbox (label : str) (options : list str) (key : str)
  | Divider.

(** Widget keys. *)
Definition summary_key (selected_paper_id r_type : str) : str :=
  selected_paper_id ++ [UNDERSCORE] ++ r_type ++ lit "_Summary".

Definition point_key (selected_paper_id r_type section : str) (i : nat) : str :=
  selected_paper_id ++ [UNDERSCORE] ++ r_type ++ [UNDERSCORE] ++ section
    ++ [UNDERSCORE] ++ lit (pretty i).

(** Lines 245-249: the text shown for a payload. *)
Definition render_text (raw_data : json) : json :=
  match raw_data with
  | JDict d =>
      py_or (dict_get d INFERENCE_REVIEW (JStr []))
            (dict_get d PREDICTION (JStr []))
  | JStr _ => raw_data
  | _ => JStr []
  end.

(** [parsed.get(section, dflt)] *)
Definition sections_get (parsed : gmap str (list str)) (section : str)
    (dflt : list str) : list str :=
  default dflt (parsed !! section).

(** The loop over [enumerate(points)], started at index [i]. *)
Fixpoint render_points (selected_paper_id r_type section : str) (i : nat)
    (points : list str) : list element :=
  match points with
  | [] => []
  | pt :: points' =>
      Markdown (lit "- " ++ pt)
      :: Selectbox (lit "Rate Point") GRADING_OPTIONS
           (point_key selected_paper_id r_type section i)
      :: render_points selected_paper_id r_type section (S i) points'
  end.

Definition render_section (selected_paper_id r_type : str)
    (parsed_data : gmap str (list str)) (section : str) : list element :=
  let points := sections_get parsed_data section [] in
  match points with
  | [] => []
  | _ :: _ =>
      [Markdown (lit "##### " ++ section)]
      ++ render_points selected_paper_id r_type section 0 points
      ++ (if bool_decide (section ≠ QUESTIONS) then [Divider] else [])
  end.

(** The body of one tab. *)
Definition render_tab (selected_paper_id r_type : str) (raw_data : json)
    : list element :=
  let parsed_data := parse_review (render_text raw_data) in
  let s_list := sections_get parsed_data SUMMARY [] in
  let s_text := match s_list with
                | s :: _ => s
                | [] => lit "No summary found."
                end in
  [Markdown (lit "##### Summary"); Markdown s_text;
   Selectbox (lit "Is this summary accurate?") GRADING_OPTIONS
     (summary_key selected_paper_id r_type);
   Divider]
  ++ flat_map (render_section selected_paper_id r_type parsed_data)
       [STRENGTHS; WEAKNESSES; QUESTIONS].

(** [reviews_map] of line 224. *)
Definition reviews_map (review_53 review_55 : json) : gmap str json :=
  {[ V5_3 := review_53; V5_5 := review_55 ]}.

(** The two tabs, each with its label and body; [review_order] is the list
    bound in the session state. *)
Definition render_form (selected_paper_id : str) (review_order : list str)
    (review_53 review_55 : json) : list (str * list element) :=
  zip_with
    (λ tab r_type,
       (tab, render_tab selected_paper_id r_type
               (dict_get (reviews_map review_53 review_55) r_type JNone)))
    [lit "Review Set A"; lit "Review Set B"] review_order.

(** The guard of line 226: the form and the submit button exist only when
    some payload is truthy. *)
Definition form_shown (review_53 review_55 : json) : bool :=
  negb (negb (truthy review_53) && negb (truthy review_55)).

(** ** Submission *)

Record row : Type := Row {
  timestamp : str;
  user : str;
  paper_id : str;
  review_type : str;
  section : str;
  point_index : nat;
  point_text : str;
  rating : pyval
}.

Inductive exn : Type := IndexError.

Inductive message : Type :=
  | Success (text : str)
  | Error (text : str).

(** [not v or v == "Select..."] *)
Definition unrated (v : pyval) : bool :=
  match v with
  | PNone => true
  | PStr s => negb (str_truthy s) || bool_decide (s = SELECT)
  | PList l => match l with [] => true | _ :: _ => false end
  end.

(** Line 301: the text the submit block parses. *)
Definition submit_text (raw_sub : json) : json :=
  match raw_sub with
  | JDict d => dict_get d INFERENCE_REVIEW (JStr [])
  | _ => raw_sub
  end.

(** [save_results]: the log is [None] while [results.csv] does not exist;
    the first write creates it with the header, later ones append. *)
Definition save_results (new_records : list row) (log : option (list row))
    : option (list row) :=
  match log with
  | None => Some new_records
  | Some rows => Some (rows ++ new_records)
  end.

Section Submit.

(** [clock k] is what [datetime.now().isoformat()] returns for the row
    built when [k] rows are already in [records]. *)
Variable clock : nat → str.
Variable current_user_id : str.
Variable selected_paper_id : str.
Variable ss : gmap str pyval.

(** The loop over [enumerate(parsed_sub.get(sec, []))], started at index
    [i]; the state is [(records, valid)].  [break] leaves this loop only. *)
Fixpoint rate_points (r_type sec : str) (i : nat) (points : list str)
    (st : list row * bool) : list row * bool :=
  match points with
  | [] => st
  | txt :: points' =>
      let p_val := session_get ss (point_key selected_paper_id r_type sec i) in
      if unrated p_val then (st.1, false)
      else
        rate_points r_type sec (S i) points'
          (st.1 ++ [Row (clock (length st.1)) current_user_id
                      selected_paper_id r_type sec i txt p_val],
           st.2)
  end.

(** The loop over the three section names; it has no [break] of its own. *)
Definition rate_sections (r_type : str) (parsed_sub : gmap str (list str))
    (st : list row * bool) : list row * bool :=
  foldl (λ st sec, rate_points r_type sec 0 (sections_get parsed_sub sec []) st)
    st [STRENGTHS; WEAKNESSES; QUESTIONS].

(** The loop over the two variants, lines 298-340. *)
Fixpoint rate_variants (r_types : list str) (review_53 review_55 : json)
    (st : list row * bool) : exn + list row * bool :=
  match r_types with
  | [] => inr st
  | r_type :: r_types' =>
      let raw_sub := dict_get (reviews_map review_53 review_55) r_type JNone in
      let txt_sub := submit_text raw_sub in
      let parsed_sub := parse_review txt_sub in
      let s_val := session_get ss (summary_key selected_paper_id r_type) in
      if unrated s_val then inr (st.1, false)
      else
        match sections_get parsed_sub SUMMARY [ [] ] !! 0 with
        | None => inl IndexError
        | Some summary_text =>
            let st1 :=
              (st.1 ++ [Row (clock (length st.1)) current_user_id
                          selected_paper_id r_type SUMMARY 0 summary_text s_val],
               st.2) in
            let st2 := rate_sections r_type parsed_sub st1 in
            if negb st2.2 then inr st2
            else rate_variants r_types' review_53 review_55 st2
        end
  end.

(** The body of [if st.button("Submit Evaluation")]: the new log and the
    message shown, or the exception that ends the run. *)
Definition submit (review_53 review_55 : json) (log : option (list row))
    : exn + option (list row) * message :=
  match rate_variants [V5_3; V5_5] review_53 review_55 ([], true) with
  | inl e => inl e
  | inr (records, valid) =>
      if valid then inr (save_results records log, Success (lit "Saved successfully!"))
      else inr (log, Error (lit "Please ensure all fields (Summary and Points) are rated for both Review sets."))
  end.

End Submit.

(** ** Loading the data *)

Definition DATA_DIR : path := BASE_DIR ++ [lit "data"].
Definition COLM_JSON_DIR : path := BASE_DIR ++ [lit "data_colm"].
Definition NEURIPS_JSON_DIR : path := BASE_DIR ++ [lit "data_neurips"].

Definition USER_CSV : path := DATA_DIR ++ [lit "user.csv"].
Definition MAPPING_CSV : path := DATA_DIR ++ [lit "mapping.csv"].
Definition p_c_53 : path := COLM_JSON_DIR ++ [lit "inference_new_papers_5_3.json"].
Definition p_c_55 : path := COLM_JSON_DIR ++ [lit "inference_new_papers_5_5.json"].
Definition p_n_53 : path := NEURIPS_JSON_DIR ++ [lit "inference_new_papers_5_3.json"].
Definition p_n_55 : path := NEURIPS_JSON_DIR ++ [lit "inference_new_papers_5_5.json"].

Section LoadGlobalData.

(** What [load_global_data] asks of pandas and of the file system.  A
    [DataFrame] is a value of [table]; a call that raises returns the
    exception, kept as its message, on the left.  The JSON files are taken
    to hold an object at their top level. *)
Variable table : Type.
(** [pd.DataFrame()] *)
Variable empty_table : table.
(** [Path.exists] *)
Variable path_exists : path → bool.
(** [pd.read_csv] *)
Variable read_csv : path → str + table.
(** [df.columns = df.columns.str.strip()] *)
Variable strip_columns : table → str + table.
(** [open] followed by [json.load] *)
Variable load_json : path → str + gmap str json.

(** [data_store], with the two tables. *)
Record loaded : Type := Loaded {
  users : table;
  mapping : table;
  datasets : data_store
}.

(** The two statements under [if (DATA_DIR / name).exists()]: the table is
    stored as read, then its column names are stripped in place. *)
Definition load_table (file : path) (current : table) : table * option str :=
  if path_exists file then
    match read_csv file with
    | inl e => (current, Some e)
    | inr df =>
        match strip_columns df with
        | inl e => (df, Some e)
        | inr df' => (df', None)
        end
    end
  else (current, None).

(** The statement under [if p.exists()] for a JSON file. *)
Definition load_dataset (file : path) (current : gmap str json)
    : gmap str json * option str :=
  if path_exists file then
    match load_json file with
    | inl e => (current, Some e)
    | inr d => (d, None)
    end
  else (current, None).

(** The statements of the [try] block, in order; each returns the store it
    leaves and the exception it raised, if any. *)
Definition load_steps : list (loaded → loaded * option str) :=
  [ (λ ds, let '(df, e) := load_table USER_CSV (users ds) in
           (Loaded df (mapping ds) (datasets ds), e));
    (λ ds, let '(df, e) := load_table MAPPING_CSV (mapping ds) in
           (Loaded (users ds) df (datasets ds), e));
    (λ ds, let '(d, e) := load_dataset p_c_53 (v5_3 (colm (datasets ds))) in
           (Loaded (users ds) (mapping ds)
              (DataStore (Collection d (v5_5 (colm (datasets ds))))
                 (neurips (datasets ds))), e));
    (λ ds, let '(d, e) := load_dataset p_c_55 (v5_5 (colm (datasets ds))) in
           (Loaded (users ds) (mapping ds)
              (DataStore (Collection (v5_3 (colm (datasets ds))) d)
                 (neurips (datasets ds))), e));
    (λ ds, let '(d, e) := load_dataset p_n_53 (v5_3 (neurips (datasets ds))) in
           (Loaded (users ds) (mapping ds)
              (DataStore (colm (datasets ds))
                 (Collection d (v5_5 (neurips (datasets ds))))), e));
    (λ ds, let '(d, e) := load_dataset p_n_55 (v5_5 (neurips (datasets ds))) in
           (Loaded (users ds) (mapping ds)
              (DataStore (colm (datasets ds))
                 (Collection (v5_3 (neurips (datasets ds))) d)), e)) ].

(** Running a [try] block: the first exception ends it. *)
Fixpoint run_try (steps : list (loaded → loaded * option str)) (ds : loaded)
    : loaded * option str :=
  match steps with
  | [] => (ds, None)
  | step :: steps' =>
      match step ds with
      | (ds', Some e) => (ds', Some e)
      | (ds', None) => run_try steps' ds'
      end
  end.

(** The store returned and the messages shown. *)
Definition load_global_data : loaded * list message :=
  let data_store :=
    Loaded empty_table empty_table
      (DataStore (Collection ∅ ∅) (Collection ∅ ∅)) in
  match run_try load_steps data_store with
  | (ds, Some e) => (ds, [Error (lit "Critical Error loading data: " ++ e)])
  | (ds, None) => (ds, [])
  end.

End LoadGlobalData.

(** ** Vocabulary of the statements *)

(** [pat] occurs in [s]. *)
Definition occurs (pat s : str) : Prop := ∃ a b, s = a ++ pat ++ b.

(** The occurrence of [pat] right after [a] is the first one in
    [a ++ pat ++ ...]: no occurrence ends before that one does. *)
Definition first_at (pat a : str) : Prop :=
  ∀ x y, a ++ pat = x ++ pat ++ y → y = [].

(** What the parser makes of the group of the Summary pattern and of the
    group of a bullet-section pattern. *)
Definition summary_block (group : option str) : list str :=
  match group with
  | Some g => if str_truthy (strip g) then [strip g] else []
  | None => []
  end.

Definition bullet_list (group : option str) : list str :=
  match group with
  | Some g => clean_points (split_newline_hyphen (strip g))
  | None => []
  end.

(** A text with the four markers in canonical order. *)
Definition canonical_text (a b c d e : str) : str :=
  a ++ bold SUMMARY ++ b ++ bold STRENGTHS ++ c ++ bold WEAKNESSES ++ d
    ++ bold QUESTIONS ++ e.

(** No section marker occurs in the text. *)
Definition no_markers (text : str) : Prop :=
  ¬ occurs (bold SUMMARY) text ∧ ¬ occurs (bold STRENGTHS) text ∧
  ¬ occurs (bold WEAKNESSES) text ∧ ¬ occurs (bold QUESTIONS) text.

(** [isinstance(v, str)] *)
Definition is_str (v : json) : Prop :=
  match v with JStr _ => True | _ => False end.

(** The keys of the rating controls of a form, in order. *)
Definition widget_keys (form : list (str * list element)) : list str :=
  flat_map
    (λ tab, flat_map (λ el, match el with
                            | Selectbox _ _ key => [key]
                            | _ => []
                            end) tab.2)
    form.

(** A form as it is displayed: tab labels, texts, control labels and
    options, with the keys of the controls blanked. *)
Definition hide_key (el : element) : element :=
  match el with
  | Selectbox label options _ => Selectbox label options []
  | _ => el
  end.

Definition displayed (form : list (str * list element))
    : list (str * list element) :=
  (λ tab : str * list element, (tab.1, hide_key <$> tab.2)) <$> form.

(** The parsed review the submit block works from for a variant. *)
Definition parsed_sub (review_53 review_55 : json) (r_type : str)
    : gmap str (list str) :=
  parse_review (submit_text (dict_get (reviews_map review_53 review_55) r_type JNone)).

(** The keys of the controls of [points], numbered from [i]. *)
Fixpoint point_keys_from (selected_paper_id r_type section : str) (i : nat)
    (points : list str) : list str :=
  match points with
  | [] => []
  | _ :: points' =>
      point_key selected_paper_id r_type section i
      :: point_keys_from selected_paper_id r_type section (S i) points'
  end.

(** The controls the submit block expects for a variant: its Summary
    control, then one per parsed point of the three bullet sections. *)
Definition section_keys (selected_paper_id r_type : str)
    (parsed : gmap str (list str)) : list str :=
  flat_map
    (λ section, point_keys_from selected_paper_id r_type section 0
                  (sections_get parsed section []))
    [STRENGTHS; WEAKNESSES; QUESTIONS].

Definition expected_keys (selected_paper_id r_type : str)
    (parsed : gmap str (list str)) : list str :=
  summary_key selected_paper_id r_type
  :: section_keys selected_paper_id r_type parsed.

(** Every control of [keys] holds a value the submit block accepts. *)
Definition all_rated (ss : gmap str pyval) (keys : list str) : bool :=
  forallb (λ key, negb (unrated (session_get ss key))) keys.

(** The four agreement levels. *)
Definition agreement_levels : list pyval := PStr <$> tail GRADING_OPTIONS.

(** Where a row belongs: variant, section and point index. *)
Definition row_place (rw : row) : str * str * nat :=
  (review_type rw, section rw, point_index rw).

Definition section_places (r_type : str) (parsed : gmap str (list str))
    : list (str * str * nat) :=
  flat_map
    (λ section, (λ i, (r_type, section, i))
                  <$> seq 0 (length (sections_get parsed section [])))
    [STRENGTHS; WEAKNESSES; QUESTIONS].

(** The rows a fully rated variant is to produce: one for the Summary with
    index 0, then one per point, indexed from 0 within each section. *)
Definition expected_places (r_type : str) (parsed : gmap str (list str))
    : list (str * str * nat) :=
  (r_type, SUMMARY, 0) :: section_places r_type parsed.

(** ** Sample inputs *)

(** A review text without any section marker. *)
Definition unsectioned_review : json :=
  JStr (lit "A careful study; the method is sound.").

(** A review text with a Strengths section and no Summary section. *)
Definition strengths_only_review : json :=
  JStr (lit "**Strengths**" ++ [LF] ++ lit "- Clear writing").

(** A dict payload with the text under "prediction" only. *)
Definition prediction_only_review : json :=
  JDict {[ PREDICTION := JStr example_text ]}.

Definition MOSTLY_AGREE : pyval := PStr (lit "Mostly Agree").
Definition COMPLETELY_AGREE : pyval := PStr (lit "Completely Agree").

(** Session of paper "p7" with only the Summary control of variant 5_3
    rated. *)
Definition session_summary_only : gmap str pyval :=
  {[ lit "p7_5_3_Summary" := MOSTLY_AGREE ]}.

(** Session of paper "p7" with every control rated, for
    [strengths_only_review] as 5_3 and [example_text] as 5_5. *)
Definition session_all_rated : gmap str pyval :=
  {[ lit "p7_5_3_Summary" := COMPLETELY_AGREE;
     lit "p7_5_3_Strengths_0" := MOSTLY_AGREE;
     lit "p7_5_5_Summary" := MOSTLY_AGREE;
     lit "p7_5_5_Strengths_0" := COMPLETELY_AGREE;
     lit "p7_5_5_Strengths_1" := MOSTLY_AGREE;
     lit "p7_5_5_Questions_0" := COMPLETELY_AGREE ]}.

(** Session of paper "p7" with every control rated but the last point of
    variant 5_5, for [unsectioned_review] as 5_3 and [example_text] as
    5_5. *)
Definition session_last_unset : gmap str pyval :=
  {[ lit "p7_5_3_Summary" := MOSTLY_AGREE;
     lit "p7_5_5_Summary" := MOSTLY_AGREE;
     lit "p7_5_5_Strengths_0" := COMPLETELY_AGREE;
     lit "p7_5_5_Strengths_1" := MOSTLY_AGREE;
     lit "p7_5_5_Questions_0" := PStr SELECT ]}.

(** ** Vocabulary of the further properties *)

(** The separator of [content.split]. *)
Definition SEPARATOR : str := [LF; HYPHEN].

(** [SEPARATOR.join(pieces)] *)
Fixpoint join_newline_hyphen (pieces : list str) : str :=
  match pieces with
  | [] => []
  | piece :: rest =>
      match rest with
      | [] => piece
      | _ :: _ => piece ++ SEPARATOR ++ join_newline_hyphen rest
      end
  end.

(** A string without whitespace at either end. *)
Definition trimmed (s : str) : Prop := strip s = s.

(** The seven characters after the paper id in a key: they tell the variant
    and the section of the control. *)
Definition key_tag (pid key : str) : str := take 7 (drop (length pid) key).

(** The key of the control a row was built from. *)
Definition row_key (rw : row) : str :=
  if decide (section rw = SUMMARY)
  then summary_key (paper_id rw) (review_type rw)
  else point_key (paper_id rw) (review_type rw) (section rw) (point_index rw).

(** A row says what the session and the parsed reviews hold: it names the
    user and the paper of the run and one of the two variants, its rating
    is the accepted value of its control, and its text is the parsed entry
    at its section and index. *)
Definition row_faithful (ss : gmap str pyval) (review_53 review_55 : json)
    (current_user_id selected_paper_id : str) (rw : row) : Prop :=
  user rw = current_user_id ∧
  paper_id rw = selected_paper_id ∧
  review_type rw ∈ [V5_3; V5_5] ∧
  rating rw = session_get ss (row_key rw) ∧
  unrated (rating rw) = false ∧
  sections_get (parsed_sub review_53 review_55 (review_type rw)) (section rw) []
    !! point_index rw = Some (point_text rw).

(** A payload that is neither a dict nor a string. *)
Definition is_other (raw : json) : Prop :=
  match raw with
  | JDict _ | JStr _ => False
  | _ => True
  end.

(** Session of paper "p7" with every control rated, for [example_text] as
    5_3 and an absent 5_5 payload. *)
Definition session_complete : gmap str pyval :=
  {[ lit "p7_5_3_Summary" := COMPLETELY_AGREE;
     lit "p7_5_3_Strengths_0" := MOSTLY_AGREE;
     lit "p7_5_3_Strengths_1" := PStr (lit "Mostly Disagree");
     lit "p7_5_3_Questions_0" := PStr (lit "Completely Disagree");
     lit "p7_5_5_Summary" := MOSTLY_AGREE ]}.

(** A clock that stands still. *)
Definition noon : nat → str := λ _, lit "2026-01-01T12:00:00".

(** The log a run leaves behind, [log] itself when the run raises. *)
Definition log_after (outcome : exn + option (list row) * message)
    (log : option (list row)) : option (list row) :=
  match outcome with
  | inl _ => log
  | inr (log', _) => log'
  end.

(** What a JSON file gives the loader: its content, or nothing when it
    is missing or does not load. *)
Definition file_content (path_exists : path → bool)
    (load_json : path → str + gmap str json) (file : path) : gmap str json :=
  if path_exists file then
    match load_json file with
    | inl _ => ∅
    | inr d => d
    end
  else ∅.

(** The values the submit block reads for a variant, control by control:
    the ratings of the slot that shows the variant. *)
Definition slot_values (ss : gmap str pyval) (selected_paper_id r_type : str)
    (parsed : gmap str (list str)) : list pyval :=
  session_get ss <$> expected_keys selected_paper_id r_type parsed.

(** The message a run of the submit block shows, [None] when it raises. *)
Definition message_of (outcome : exn + option (list row) * message)
    : option message :=
  match outcome with
  | inl _ => None
  | inr (_, msg) => Some msg
  end.

(** The key of the control of a place. *)
Definition place_key (selected_paper_id : str) (place : str * str * nat) : str :=
  if decide (place.1.2 = SUMMARY)
  then summary_key selected_paper_id place.1.1
  else point_key selected_paper_id place.1.1 place.1.2 place.2.

(** [session_summary_only] with the rating under the key of variant 5_5. *)
Definition session_summary_only_swapped : gmap str pyval :=
  {[ lit "p7_5_5_Summary" := MOSTLY_AGREE ]}.

(** [session_complete] with the two variants exchanged: [example_text] as
    5_5 and an absent 5_3 payload. *)
Definition session_complete_swapped : gmap str pyval :=
  {[ lit "p7_5_5_Summary" := COMPLETELY_AGREE;
     lit "p7_5_5_Strengths_0" := MOSTLY_AGREE;
     lit "p7_5_5_Strengths_1" := PStr (lit "Mostly Disagree");
     lit "p7_5_5_Questions_0" := PStr (lit "Completely Disagree");
     lit "p7_5_3_Summary" := MOSTLY_AGREE ]}.

(** [session_complete] as the submit block finds it: with the order of the
    paper bound. *)
Definition session_complete_bound : gmap str pyval :=
  <[session_key (lit "p7") := PList [V5_5; V5_3]]> session_complete.

(** * Properties *)

(** ** Literal search *)

Section FindLiteral.

Implicit Types pat s a b x y : str.

Lemma find_literal_unfold pat s :
  find_literal pat s =
    if decide (pat `prefix_of` s) then Some ([], drop (length pat) s)
    else match s with
         | [] => None
         | c :: s' => prod_map (cons c) id <$> find_literal pat s'
         end.
Proof. by destruct s. Qed.

Lemma find_literal_Some pat s a b :
  find_literal pat s = Some (a, b) → s = a ++ pat ++ b.
Proof.
  revert a. induction s as [|c s IH]; intros a; rewrite find_literal_unfold.
  - case_decide as Hp; [|done]. intros [= <- <-].
    by apply prefix_nil_inv in Hp as ->.
  - case_decide as Hp.
    + intros [= <- <-]. destruct Hp as [k ->]. by rewrite drop_app_length.
    + destruct (find_literal pat s) as [[a' b']|] eqn:Hf; [|done].
      intros [= <- <-]. by rewrite (IH a' eq_refl).
Qed.

Lemma find_literal_leftmost pat s a b x y :
  find_literal pat s = Some (a, b) → s = x ++ pat ++ y → length a ≤ length x.
Proof.
  revert a x. induction s as [|c s IH]; intros a x; rewrite find_literal_unfold.
  - case_decide; [|done]. intros [= <- <-] _. simpl. lia.
  - case_decide as Hp; [intros [= <- <-] _; simpl; lia|].
    destruct (find_literal pat s) as [[a' b']|] eqn:Hf; [|done].
    intros [= <- <-] Hs. destruct x as [|c' x].
    + destruct Hp. exists y. by rewrite Hs.
    + injection Hs as _ Hs. simpl. specialize (IH a' x eq_refl Hs). lia.
Qed.

Lemma find_literal_None pat s : ¬ occurs pat s → find_literal pat s = None.
Proof.
  destruct (find_literal pat s) as [[a b]|] eqn:Hf; [|done].
  intros []. exists a, b. by apply find_literal_Some.
Qed.

Lemma find_literal_None_inv pat s : find_literal pat s = None → ¬ occurs pat s.
Proof.
  induction s as [|c s IH]; intros Hf; rewrite find_literal_unfold in Hf.
  - destruct (decide (pat `prefix_of` [])) as [|Hp]; [done|].
    intros (a & b & Hs). destruct Hp.
    symmetry in Hs. apply app_eq_nil in Hs as [_ Hs].
    apply app_eq_nil in Hs as [-> _]. done.
  - destruct (decide (pat `prefix_of` c :: s)) as [|Hp]; [done|].
    destruct (find_literal pat s) as [[a' b']|] eqn:Hf'; [done|].
    intros (a & b & Hs). destruct a as [|c' a].
    + destruct Hp. exists b. by rewrite Hs.
    + injection Hs as _ Hs. apply IH; [done|]. by exists a, b.
Qed.

(** Text appended after the first occurrence does not move it. *)
Lemma find_literal_app pat s t a b :
  find_literal pat s = Some (a, b) → find_literal pat (s ++ t) = Some (a, b ++ t).
Proof.
  revert a. induction s as [|c s IH]; intros a Hf;
    rewrite find_literal_unfold in Hf.
  - destruct (decide (pat `prefix_of` [])) as [Hp|]; [|done].
    injection Hf as <- <-. apply prefix_nil_inv in Hp as ->.
    rewrite find_literal_unfold, decide_True by (apply prefix_nil). done.
  - destruct (decide (pat `prefix_of` c :: s)) as [Hp|Hp].
    + injection Hf as <- <-.
      rewrite find_literal_unfold, decide_True by (by apply prefix_app_r).
      destruct Hp as [k Hk]. rewrite Hk, <-(assoc_L (++)).
      by rewrite !drop_app_length.
    + destruct (find_literal pat s) as [[a' b']|] eqn:Hf'; [|done].
      injection Hf as <- <-.
      rewrite find_literal_unfold, decide_False.
      * simpl. by rewrite (IH a' eq_refl).
      * intros Hp'. apply Hp.
        apply find_literal_Some in Hf'.
        destruct Hp' as [k Hk].
        assert (length pat ≤ length (c :: s)) as Hlen.
        { rewrite Hf'. simpl. rewrite !length_app. lia. }
        exists (take (length (c :: s) - length pat) k).
        apply (f_equal (take (length (c :: s)))) in Hk.
        rewrite (take_app_length (c :: s) t), take_app in Hk.
        by rewrite (take_ge pat) in Hk by lia.
Qed.

Lemma find_literal_occurs pat s : occurs pat s → is_Some (find_literal pat s).
Proof.
  intros Ho. destruct (find_literal pat s) eqn:Hf; [by eexists|].
  by apply find_literal_None_inv in Hf.
Qed.

Lemma find_literal_first pat a r :
  first_at pat a → find_literal pat (a ++ pat ++ r) = Some (a, r).
Proof.
  intros Hfirst.
  assert (is_Some (find_literal pat (a ++ pat))) as [[a' b'] Hf].
  { apply find_literal_occurs. exists a, []. by rewrite app_nil_r. }
  pose proof (find_literal_Some _ _ _ _ Hf) as Hs.
  pose proof (Hfirst _ _ Hs) as ->. rewrite app_nil_r in Hs.
  apply app_inj_2 in Hs as [-> _]; [|done].
  rewrite (assoc_L (++)). by rewrite (find_literal_app _ _ r _ _ Hf).
Qed.

Lemma first_at_find pat a : find_literal pat (a ++ pat) = Some (a, []) → first_at pat a.
Proof.
  intros Hf x y Hs.
  pose proof (find_literal_leftmost _ _ _ _ _ _ Hf Hs) as Hle.
  apply (f_equal length) in Hs. rewrite !length_app in Hs.
  apply nil_length_inv. lia.
Qed.

End FindLiteral.

(** ** String primitives on sample inputs *)

Example strip_sample :
  strip ([LF; 32; 160] ++ lit "a b" ++ [9; 8232])%N = lit "a b".
Proof. reflexivity. Qed.

Example split_sample :
  split_newline_hyphen (lit "a" ++ [LF] ++ lit "-" ++ [LF] ++ lit "-b" ++ [LF])
    = [lit "a"; []; lit "b" ++ [LF]].
Proof. reflexivity. Qed.

Example split_empty_sample : split_newline_hyphen [] = [ [] ].
Proof. reflexivity. Qed.

Example search_until_sample :
  search_until (lit "<a>") (lit "<b>") (lit "x<a>y<a>z<b>w<b>") = Some (lit "y<a>z").
Proof. reflexivity. Qed.

Example point_key_sample :
  point_key (lit "p7") V5_3 STRENGTHS 12 = lit "p7_5_3_Strengths_12".
Proof. reflexivity. Qed.

(** ** Review parser *)

Section ParseReview.

Implicit Types text a b d e g r pre post marker stop : str.

(** The parser's result on a string, section by section. *)
Lemma parse_review_str text :
  parse_review (JStr text) =
    {[ SUMMARY := summary_block (search_until (bold SUMMARY) (bold STRENGTHS) text);
       STRENGTHS := bullet_list (search_until (bold STRENGTHS) (bold WEAKNESSES) text);
       WEAKNESSES := bullet_list (search_until (bold WEAKNESSES) (bold QUESTIONS) text);
       QUESTIONS := bullet_list (search_rest (bold QUESTIONS) text) ]}.
Proof.
  unfold parse_review, summary_block, bullet_list.
  destruct (search_until (bold SUMMARY) _ text) as [gs|];
    destruct (search_until (bold STRENGTHS) _ text) as [g1|];
    destruct (search_until (bold WEAKNESSES) _ text) as [g2|];
    destruct (search_rest (bold QUESTIONS) text) as [g3|];
    try destruct (str_truthy (strip gs)); reflexivity.
Qed.

Lemma parse_review_summary text :
  parse_review (JStr text) !! SUMMARY =
    Some (summary_block (search_until (bold SUMMARY) (bold STRENGTHS) text)).
Proof. by rewrite parse_review_str. Qed.

Lemma parse_review_strengths text :
  parse_review (JStr text) !! STRENGTHS =
    Some (bullet_list (search_until (bold STRENGTHS) (bold WEAKNESSES) text)).
Proof. by rewrite parse_review_str. Qed.

(** Every result of the parser has the four keys. *)
Lemma parse_review_keys v section :
  section ∈ [SUMMARY; STRENGTHS; WEAKNESSES; QUESTIONS] →
  is_Some (parse_review v !! section).
Proof.
  intros Hin.
  assert (∀ x1 x2 x3 x4 : list str,
    is_Some (({[ SUMMARY := x1; STRENGTHS := x2; WEAKNESSES := x3;
                 QUESTIONS := x4 ]} : gmap str (list str)) !! section)) as Hkeys.
  { intros. repeat (apply elem_of_cons in Hin as [->|Hin]; [by eexists|]).
    by apply elem_of_nil in Hin. }
  destruct v; try apply Hkeys. rewrite parse_review_str. apply Hkeys.
Qed.

(** The group of a lazy pattern is cut at the first stop marker after the
    first marker. *)
Lemma search_until_first marker stop a g r :
  first_at marker a → first_at stop g →
  search_until marker stop (a ++ marker ++ g ++ stop ++ r) = Some g.
Proof.
  intros Ha Hg. unfold search_until.
  rewrite (find_literal_first _ _ _ Ha).
  by rewrite (find_literal_first _ _ _ Hg).
Qed.

(** What follows the stop marker has no influence on the group. *)
Lemma search_until_frame marker stop pre post :
  occurs marker pre →
  search_until marker stop (pre ++ stop ++ post) =
    search_until marker stop (pre ++ stop).
Proof.
  intros Ho. unfold search_until.
  destruct (find_literal_occurs _ _ Ho) as [[x y] Hf].
  rewrite !(find_literal_app _ _ _ _ _ Hf).
  assert (is_Some (find_literal stop (y ++ stop))) as [[g z] Hg].
  { apply find_literal_occurs. exists y, []. by rewrite app_nil_r. }
  rewrite (assoc_L (++) y stop post).
  by rewrite (find_literal_app _ _ post _ _ Hg), Hg.
Qed.

Lemma drop_while_nil (p : N → bool) s :
  drop_while p s = [] ↔ Forall (λ c, p c = true) s.
Proof.
  induction s as [|c s IH]; simpl; [by split|].
  destruct (p c) eqn:Hc.
  - rewrite IH. split; [by constructor|by inversion 1].
  - split; [done|]. inversion 1; congruence.
Qed.

Lemma drop_while_head (p : N → bool) s (ch : N) r :
  drop_while p s = ch :: r → p ch = false.
Proof.
  induction s as [|c' s IH]; simpl; [done|].
  destruct (p c') eqn:Hc; [done|]. by intros [= <- _].
Qed.

(** A string strips to nothing exactly when it is all whitespace. *)
Lemma strip_nil s : strip s = [] ↔ Forall (λ c, isspace c = true) s.
Proof.
  unfold strip, rstrip, lstrip. split.
  - intros H. apply (f_equal reverse) in H.
    rewrite reverse_involutive, reverse_nil in H.
    apply drop_while_nil in H. apply drop_while_nil.
    destruct (drop_while isspace s) as [|ch r] eqn:Hd; [done|].
    apply drop_while_head in Hd.
    rewrite reverse_cons in H. apply Forall_app in H as [_ H].
    inversion H; congruence.
  - intros H. apply drop_while_nil in H. by rewrite H.
Qed.

End ParseReview.

Section ParseReviewClaims.

(** C8.  The example text of the specification — a Summary line, two
    Strengths bullets, an empty Weaknesses section and one Questions
    bullet — parses to exactly Summary = ["A study."], Strengths =
    ["Point 1", "Point 2"], Weaknesses = [] and Questions = ["Q1"]. *)
Theorem parse_review_example :
  parse_review (JStr example_text) =
    {[ SUMMARY := [lit "A study."];
       STRENGTHS := [lit "Point 1"; lit "Point 2"];
       WEAKNESSES := [];
       QUESTIONS := [lit "Q1"] ]}.
Proof. vm_compute. reflexivity. Qed.

(** C9.  On every input that is not a string the parser returns the
    placeholder review: Summary is the single string "Review not
    available." and the three bullet lists are empty.  On every string in
    which none of the four markers occurs all four sections are empty, with
    no placeholder. *)
Theorem parse_review_fallbacks :
  (∀ v, ¬ is_str v →
     parse_review v =
       {[ SUMMARY := [PLACEHOLDER]; STRENGTHS := []; WEAKNESSES := [];
          QUESTIONS := [] ]}) ∧
  (∀ text, no_markers text →
     parse_review (JStr text) =
       {[ SUMMARY := []; STRENGTHS := []; WEAKNESSES := []; QUESTIONS := [] ]}).
Proof.
  split.
  - intros v Hv. destruct v; try reflexivity. by destruct Hv.
  - intros text (Hsum & Hstr & Hweak & Hq).
    rewrite parse_review_str. unfold search_until, search_rest.
    by rewrite !find_literal_None.
Qed.

(** C9 on the number 7 and on a text without markers. *)
Lemma parse_review_fallbacks_witness :
  parse_review (JInt 7) =
    {[ SUMMARY := [PLACEHOLDER]; STRENGTHS := []; WEAKNESSES := [];
       QUESTIONS := [] ]} ∧
  parse_review (JStr (lit "A fine paper, *really*.")) =
    {[ SUMMARY := []; STRENGTHS := []; WEAKNESSES := []; QUESTIONS := [] ]}.
Proof.
  split.
  - apply (proj1 parse_review_fallbacks). simpl. tauto.
  - apply (proj2 parse_review_fallbacks).
    repeat split; apply find_literal_None_inv; reflexivity.
Defined.

(** C5, the claim as stated fails: a text with the four markers in
    canonical order whose Summary section holds only a newline parses to
    an empty Summary list. *)
Lemma canonical_text_empty_summary :
  parse_review
    (JStr (canonical_text [] [LF] ([LF] ++ lit "- Clear writing" ++ [LF])
             [LF] ([LF] ++ lit "- Why?"))) !! SUMMARY = Some [].
Proof. vm_compute. reflexivity. Qed.

(** C5, amended.  Take a text with the four markers in canonical order in
    which the Summary marker is the first of the text and the Strengths
    marker the first after it.  Its Summary list holds the trimmed text
    between the two markers when that text has a character that is not
    whitespace, and is empty when it has none.  Its Strengths list is the
    same whatever follows the Weaknesses marker: nothing located after
    that marker reaches the Strengths list. *)
Theorem parse_review_canonical (a b c d e : str) :
  first_at (bold SUMMARY) a → first_at (bold STRENGTHS) b →
  (Exists (λ ch, isspace ch = false) b →
     parse_review (JStr (canonical_text a b c d e)) !! SUMMARY = Some [strip b]) ∧
  (Forall (λ ch, isspace ch = true) b →
     parse_review (JStr (canonical_text a b c d e)) !! SUMMARY = Some []) ∧
  (∀ post,
     parse_review
       (JStr (a ++ bold SUMMARY ++ b ++ bold STRENGTHS ++ c ++ bold WEAKNESSES
                ++ post)) !! STRENGTHS =
     parse_review (JStr (canonical_text a b c d e)) !! STRENGTHS).
Proof.
  intros Ha Hb.
  assert (parse_review (JStr (canonical_text a b c d e)) !! SUMMARY =
            Some (summary_block (Some b))) as Hsum.
  { rewrite parse_review_summary. unfold canonical_text.
    by rewrite (search_until_first _ _ _ _ _ Ha Hb). }
  split_and!.
  - intros Hex. rewrite Hsum. simpl.
    destruct (strip b) eqn:Hs; [|done].
    apply strip_nil in Hs. apply Exists_exists in Hex as (ch & Hin & Hch).
    rewrite Forall_forall in Hs. specialize (Hs ch Hin). congruence.
  - intros Hall. rewrite Hsum. simpl. apply strip_nil in Hall. by rewrite Hall.
  - intros post. rewrite !parse_review_strengths. f_equal. f_equal.
    unfold canonical_text.
    assert (occurs (bold STRENGTHS) (a ++ bold SUMMARY ++ b ++ bold STRENGTHS ++ c))
      as Ho.
    { exists (a ++ bold SUMMARY ++ b), c. by rewrite <-!(assoc_L (++)). }
    pose proof (search_until_frame _ (bold WEAKNESSES) _ post Ho) as H1.
    pose proof (search_until_frame _ (bold WEAKNESSES) _
                  (d ++ bold QUESTIONS ++ e) Ho) as H2.
    rewrite <-!(assoc_L (++)) in H1, H2. by rewrite H1, H2.
Qed.

(** C5, amended, on a text whose Summary section reads "A study.". *)
Lemma parse_review_canonical_witness :
  parse_review
    (JStr (canonical_text (lit "Review") ([LF] ++ lit "A study." ++ [LF])
             (lit "- Solid") (lit "- Slow") (lit "- Why?"))) !! SUMMARY
    = Some [lit "A study."].
Proof.
  refine (proj1 (parse_review_canonical (lit "Review")
                   ([LF] ++ lit "A study." ++ [LF])
                   (lit "- Solid") (lit "- Slow") (lit "- Why?") _ _) _).
  - apply first_at_find. reflexivity.
  - apply first_at_find. reflexivity.
  - apply Exists_cons_tl, Exists_cons_hd. reflexivity.
Defined.

End ParseReviewClaims.

(** ** Assignment resolver *)

Section Resolver.

(** C7.  Resolution looks in COLM first and in NeurIPS second.  A paper
    id that is a key of either COLM dataset resolves to the COLM PDF path
    and the two COLM payloads, each [None] when its dataset lacks the id,
    also when the id is in NeurIPS too; an id in no COLM dataset but in a
    NeurIPS one resolves likewise to NeurIPS; an id in none of the four
    datasets gives four [None]. *)
Theorem get_paper_details_resolution (paper_id : str) (ds : data_store) :
  let found (c : collection) :=
    is_Some (v5_3 c !! paper_id) ∨ is_Some (v5_5 c !! paper_id) in
  (found (colm ds) →
     get_paper_details paper_id ds =
       (Some [lit "."; lit "pdfs_colm"; paper_id ++ lit ".pdf"],
        default JNone (v5_3 (colm ds) !! paper_id),
        default JNone (v5_5 (colm ds) !! paper_id),
        Some (lit "COLM"))) ∧
  (¬ found (colm ds) → found (neurips ds) →
     get_paper_details paper_id ds =
       (Some [lit "."; lit "pdfs_neurips"; paper_id ++ lit ".pdf"],
        default JNone (v5_3 (neurips ds) !! paper_id),
        default JNone (v5_5 (neurips ds) !! paper_id),
        Some (lit "NeurIPS"))) ∧
  (¬ found (colm ds) → ¬ found (neurips ds) →
     get_paper_details paper_id ds = (None, JNone, JNone, None)).
Proof.
  intros found. unfold get_paper_details, py_in.
  assert (∀ c, found c ↔
    bool_decide (is_Some (v5_3 c !! paper_id))
    || bool_decide (is_Some (v5_5 c !! paper_id)) = true) as Hfound.
  { intros c. unfold found.
    rewrite orb_true_iff, !bool_decide_eq_true. done. }
  split_and!.
  - intros Hc. apply Hfound in Hc. by rewrite Hc.
  - intros Hc Hn. apply Hfound in Hn.
    rewrite Hfound in Hc. apply not_true_is_false in Hc. by rewrite Hc, Hn.
  - intros Hc Hn. rewrite Hfound in Hc, Hn.
    apply not_true_is_false in Hc, Hn. by rewrite Hc, Hn.
Qed.

(** C7 on an id that is in the 5_3 dataset of COLM and in the 5_5 dataset
    of NeurIPS. *)
Lemma get_paper_details_resolution_witness :
  get_paper_details (lit "p7")
    (DataStore (Collection {[ lit "p7" := JStr (lit "short") ]} ∅)
               (Collection ∅ {[ lit "p7" := JStr (lit "other") ]})) =
    (Some [lit "."; lit "pdfs_colm"; lit "p7.pdf"],
     JStr (lit "short"), JNone, Some (lit "COLM")).
Proof.
  refine (proj1 (get_paper_details_resolution (lit "p7")
    (DataStore (Collection {[ lit "p7" := JStr (lit "short") ]} ∅)
               (Collection ∅ {[ lit "p7" := JStr (lit "other") ]}))) _).
  left. vm_compute. eauto.
Defined.

End Resolver.

(** ** Blind order *)

Section BlindOrder.

Lemma randbelow_lt (n : nat) (tape : list nat) :
  0 < n → (randbelow n tape).1 < n.
Proof.
  intros Hn. induction tape as [|raw tape IH]; [done|].
  cbn [randbelow]. destruct (_ <? n) eqn:Hlt; [|done].
  by apply Nat.ltb_lt in Hlt.
Qed.

Lemma shuffle_two (a b : str) tape :
  ∃ tape', shuffle [a; b] tape = ([a; b], tape') ∨
           shuffle [a; b] tape = ([b; a], tape').
Proof.
  unfold shuffle. change (length [a; b] - 1) with 1. cbn [shuffle_from].
  pose proof (randbelow_lt 2 tape ltac:(lia)) as Hlt.
  destruct (randbelow 2 tape) as [j tape']. exists tape'. cbn [fst] in Hlt.
  destruct j as [|[|j]]; [by right|by left|lia].
Qed.

Lemma bind_order_again (pid : str) (ss : gmap str pyval) (tape : list nat) v :
  ss !! session_key pid = Some v →
  bind_order pid ss tape = (Some v, ss, tape).
Proof.
  intros Hv. unfold bind_order, py_in.
  rewrite bool_decide_eq_true_2 by (by rewrite Hv). simpl. by rewrite Hv.
Qed.

Lemma bind_order_first (pid : str) (ss : gmap str pyval) (tape : list nat) :
  ∃ v ss1 tape1,
    bind_order pid ss tape = (Some v, ss1, tape1) ∧
    ss1 !! session_key pid = Some v ∧
    (ss !! session_key pid = None →
       v = PList [V5_3; V5_5] ∨ v = PList [V5_5; V5_3]).
Proof.
  destruct (ss !! session_key pid) as [v|] eqn:Hss.
  - exists v, ss, tape. by rewrite (bind_order_again _ _ _ _ Hss).
  - unfold bind_order, py_in.
    rewrite bool_decide_eq_false_2 by (rewrite Hss; by intros [? ?]). simpl.
    destruct (shuffle_two V5_3 V5_5 tape) as [tape1 [Hsh|Hsh]];
      rewrite Hsh; rewrite lookup_insert_eq.
    + exists (PList [V5_3; V5_5]). eexists _, _. split_and!; eauto.
      apply lookup_insert_eq.
    + exists (PList [V5_5; V5_3]). eexists _, _. split_and!; eauto.
      apply lookup_insert_eq.
Qed.

(** C10.  The first access for a paper in a session, when nothing is bound
    yet, binds one of the two orders of the variant identifiers; every
    access returns a binding; and any later access in a session state that
    still holds that entry returns the same binding, leaves the session
    state as it is and draws nothing from the generator. *)
Theorem bind_order_stable (selected_paper_id : str) (ss : gmap str pyval)
    (tape : list nat) :
  let first := bind_order selected_paper_id ss tape in
  (ss !! session_key selected_paper_id = None →
     first.1.1 = Some (PList [V5_3; V5_5]) ∨
     first.1.1 = Some (PList [V5_5; V5_3])) ∧
  is_Some first.1.1 ∧
  (∀ (ss' : gmap str pyval) tape',
     ss' !! session_key selected_paper_id
       = first.1.2 !! session_key selected_paper_id →
     bind_order selected_paper_id ss' tape' = (first.1.1, ss', tape')).
Proof.
  intros first.
  destruct (bind_order_first selected_paper_id ss tape)
    as (v & ss1 & tape1 & Hb & Hv & Hfirst).
  subst first. rewrite Hb. simpl. split_and!.
  - intros Hss. destruct (Hfirst Hss) as [->| ->]; auto.
  - by eexists.
  - intros ss' tape' Hss'. apply bind_order_again. by rewrite Hss'.
Qed.

(** C10 on a fresh session: the order bound on the first access is read
    back after a rating has been stored. *)
Lemma bind_order_stable_witness :
  bind_order (lit "p7")
    (<[lit "p7_5_3_Summary" := PStr (lit "Mostly Agree")]>
       (bind_order (lit "p7") ∅ [3; 4]).1.2) [5; 6]
  = (Some (PList [V5_5; V5_3]),
     <[lit "p7_5_3_Summary" := PStr (lit "Mostly Agree")]>
       (bind_order (lit "p7") ∅ [3; 4]).1.2, [5; 6]).
Proof.
  refine (proj2 (proj2 (bind_order_stable (lit "p7") ∅ [3; 4])) _ [5; 6] _).
  vm_compute. reflexivity.
Defined.

End BlindOrder.

(** ** Rating form *)

Section RatingForm.

Lemma render_points_hide_key (pid r r' section : str) i points :
  hide_key <$> render_points pid r section i points =
  hide_key <$> render_points pid r' section i points.
Proof.
  revert i. induction points as [|pt points IH]; intros i; [done|].
  cbn [render_points]. rewrite !fmap_cons. cbn [hide_key].
  by rewrite (IH (S i)).
Qed.

Lemma render_section_hide_key (pid r r' : str) parsed (section : str) :
  hide_key <$> render_section pid r parsed section =
  hide_key <$> render_section pid r' parsed section.
Proof.
  unfold render_section. destruct (sections_get parsed section []); [done|].
  rewrite !fmap_app. by rewrite (render_points_hide_key pid r r').
Qed.

Lemma render_tab_hide_key (pid r r' : str) raw :
  hide_key <$> render_tab pid r raw = hide_key <$> render_tab pid r' raw.
Proof.
  unfold render_tab. cbn [flat_map]. rewrite !fmap_app.
  by rewrite !(render_section_hide_key pid r r').
Qed.

(** With the keys of the controls counted as visible, the form of a paper
    under one binding differs from the form that shows the same reviews in
    the same slots under the other binding. *)
Lemma widget_keys_name_variant :
  render_form (lit "p7") [V5_3; V5_5]
    (JStr example_text) (JStr (lit "**Summary** Fine."))
  ≠ render_form (lit "p7") [V5_5; V5_3]
      (JStr (lit "**Summary** Fine.")) (JStr example_text).
Proof.
  intros H. apply (f_equal widget_keys) in H. vm_compute in H. discriminate.
Qed.

(** What the form displays — tab labels, texts, control labels and
    options — is the same whichever variant identifier stands behind a
    slot: showing review [x] in slot A and [y] in slot B displays the same
    whether A is bound to 5_3 or to 5_5. *)
Lemma displayed_form_blind (selected_paper_id : str) (x y : json) :
  displayed (render_form selected_paper_id [V5_3; V5_5] x y) =
  displayed (render_form selected_paper_id [V5_5; V5_3] y x).
Proof.
  assert (∀ u v, dict_get (reviews_map u v) V5_3 JNone = u) as H53 by done.
  assert (∀ u v, dict_get (reviews_map u v) V5_5 JNone = v) as H55 by done.
  unfold displayed, render_form. cbn [zip_with].
  rewrite !fmap_cons. cbn [fst snd]. rewrite !H53, !H55.
  by rewrite (render_tab_hide_key _ V5_3 V5_5 x),
             (render_tab_hide_key _ V5_5 V5_3 y).
Qed.

End RatingForm.

(** ** Submission *)

Section SubmitLoops.

Variable clock : nat → str.
Variable current_user_id : str.
Variable selected_paper_id : str.
Variable ss : gmap str pyval.

Local Abbreviation points_loop := (rate_points clock current_user_id selected_paper_id ss).
Local Abbreviation sections_loop := (rate_sections clock current_user_id selected_paper_id ss).
Local Abbreviation variants_loop := (rate_variants clock current_user_id selected_paper_id ss).

(** The flag after the point loop: still set only if it was set before and
    every point of the section is rated. *)
Lemma rate_points_valid (r_type sec : str) i points st :
  (points_loop r_type sec i points st).2 =
    st.2 && all_rated ss (point_keys_from selected_paper_id r_type sec i points).
Proof.
  revert i st. induction points as [|txt points IH]; intros i st.
  - simpl. by rewrite andb_true_r.
  - cbn [rate_points point_keys_from all_rated forallb].
    destruct (unrated _) eqn:Hu.
    + simpl. by rewrite andb_false_r.
    + rewrite IH. done.
Qed.

(** With every point rated the loop appends one row per point, in order. *)
Lemma rate_points_rows (r_type sec : str) i points st :
  all_rated ss (point_keys_from selected_paper_id r_type sec i points) = true →
  ∃ rows,
    points_loop r_type sec i points st = (st.1 ++ rows, st.2) ∧
    row_place <$> rows = (λ j, (r_type, sec, j)) <$> seq i (length points).
Proof.
  revert i st. induction points as [|txt points IH]; intros i st Hall.
  - exists []. simpl. rewrite app_nil_r. by destruct st.
  - cbn [point_keys_from all_rated forallb] in Hall.
    apply andb_true_iff in Hall as [Hhead Hall].
    apply negb_true_iff in Hhead.
    cbn [rate_points]. rewrite Hhead.
    edestruct (IH (S i)) as (rows & -> & Hplaces); [exact Hall|].
    eexists (_ :: rows). split.
    + cbn [fst snd]. by rewrite <-(assoc_L (++)).
    + cbn [length seq]. rewrite !fmap_cons. by rewrite Hplaces.
Qed.

Lemma rate_sections_valid (r_type : str) parsed st :
  (sections_loop r_type parsed st).2 =
    st.2 && all_rated ss (section_keys selected_paper_id r_type parsed).
Proof.
  unfold rate_sections, section_keys, all_rated.
  cbn [foldl flat_map]. rewrite !rate_points_valid. unfold all_rated.
  rewrite !forallb_app. simpl. rewrite andb_true_r.
  by rewrite !andb_assoc.
Qed.

Lemma rate_sections_rows (r_type : str) parsed st :
  all_rated ss (section_keys selected_paper_id r_type parsed) = true →
  ∃ rows,
    sections_loop r_type parsed st = (st.1 ++ rows, st.2) ∧
    row_place <$> rows = section_places r_type parsed.
Proof.
  unfold section_keys, all_rated. cbn [flat_map].
  rewrite !forallb_app, !andb_true_iff. intros (H1 & H2 & H3 & _).
  unfold rate_sections. cbn [foldl].
  destruct (rate_points_rows r_type STRENGTHS 0 _ st H1) as (rows1 & -> & Hp1).
  destruct (rate_points_rows r_type WEAKNESSES 0 _ (st.1 ++ rows1, st.2) H2)
    as (rows2 & -> & Hp2).
  destruct (rate_points_rows r_type QUESTIONS 0 _
              ((st.1 ++ rows1, st.2).1 ++ rows2, (st.1 ++ rows1, st.2).2) H3)
    as (rows3 & -> & Hp3).
  exists (rows1 ++ rows2 ++ rows3). split.
  - cbn [fst snd]. by rewrite <-!(assoc_L (++)).
  - unfold section_places. cbn [flat_map].
    rewrite !fmap_app, app_nil_r. by rewrite Hp1, Hp2, Hp3.
Qed.

Lemma all_rated_expected (r : str) parsed :
  all_rated ss (expected_keys selected_paper_id r parsed) =
    negb (unrated (session_get ss (summary_key selected_paper_id r)))
    && all_rated ss (section_keys selected_paper_id r parsed).
Proof. done. Qed.

Lemma rate_variants_valid r_types (x y : json) st records valid :
  variants_loop r_types x y st = inr (records, valid) →
  valid = st.2 &&
    forallb (λ r, all_rated ss (expected_keys selected_paper_id r (parsed_sub x y r)))
      r_types.
Proof.
  revert st. induction r_types as [|r r_types IH]; intros st.
  - simpl. intros [= ->]. simpl. by rewrite andb_true_r.
  - cbn [rate_variants forallb]. fold (parsed_sub x y r).
    rewrite all_rated_expected.
    destruct (unrated _) eqn:Hu.
    { intros [= _ <-]. simpl. by rewrite andb_false_r. }
    destruct (sections_get (parsed_sub x y r) SUMMARY [ [] ] !! 0)
      as [summary_text|]; [|done].
    set (st1 := (st.1 ++ [_], st.2)).
    pose proof (rate_sections_valid r (parsed_sub x y r) st1) as Hv.
    destruct (sections_loop r (parsed_sub x y r) st1) as [records2 valid2] eqn:Hst2.
    subst st1. cbn [fst snd] in *. destruct valid2; cbn [negb].
    + intros Hrec. apply IH in Hrec. cbn [snd] in Hrec.
      symmetry in Hv. apply andb_true_iff in Hv as [Hs Ha].
      by rewrite Hs, Ha, Hrec.
    + intros [= _ <-]. cbn [negb]. by rewrite andb_true_l, andb_assoc, <-Hv.
Qed.

Lemma rate_variants_rows r_types (x y : json) st records :
  variants_loop r_types x y st = inr (records, true) →
  ∃ rows,
    records = st.1 ++ rows ∧
    row_place <$> rows =
      flat_map (λ r, expected_places r (parsed_sub x y r)) r_types.
Proof.
  revert st. induction r_types as [|r r_types IH]; intros st.
  - simpl. intros [= ->]. exists []. by rewrite app_nil_r.
  - intros Hloop. pose proof (rate_variants_valid _ _ _ _ _ _ Hloop) as Hvalid.
    symmetry in Hvalid. cbn [forallb] in Hvalid.
    rewrite all_rated_expected in Hvalid.
    rewrite !andb_true_iff in Hvalid. destruct Hvalid as (_ & (Hsum & Hsec) & _).
    apply negb_true_iff in Hsum.
    revert Hloop. cbn [rate_variants]. fold (parsed_sub x y r). rewrite Hsum.
    destruct (sections_get (parsed_sub x y r) SUMMARY [ [] ] !! 0)
      as [summary_text|]; [|done].
    set (st1 := (st.1 ++ [_], st.2)).
    destruct (rate_sections_rows r (parsed_sub x y r) st1 Hsec) as (rows2 & -> & Hp2).
    subst st1. destruct st as [records0 [|]]; cbn [fst snd negb]; [|by intros [=]].
    intros Hrec. apply IH in Hrec as (rows & -> & Hp).
    eexists (_ :: rows2 ++ rows). split.
    + cbn [fst]. rewrite <-!(assoc_L (++)). done.
    + cbn [flat_map expected_places]. rewrite fmap_cons, fmap_app, Hp2, Hp. done.
Qed.

(** With every expected control rated and a Summary entry for every
    variant, the loop runs to its end with the flag set. *)
Lemma rate_variants_total r_types (x y : json) st :
  st.2 = true →
  Forall (λ r,
    all_rated ss (expected_keys selected_paper_id r (parsed_sub x y r)) = true ∧
    sections_get (parsed_sub x y r) SUMMARY [] ≠ []) r_types →
  ∃ records, variants_loop r_types x y st = inr (records, true).
Proof.
  revert st. induction r_types as [|r r_types IH]; intros st Hst Hall.
  - exists st.1. simpl. destruct st. simpl in Hst. by subst.
  - apply Forall_cons in Hall as [[Hrated Hsummary] Hall].
    rewrite all_rated_expected in Hrated.
    apply andb_true_iff in Hrated as [Hsum Hsec]. apply negb_true_iff in Hsum.
    cbn [rate_variants]. fold (parsed_sub x y r). rewrite Hsum.
    assert (is_Some (parsed_sub x y r !! SUMMARY)) as [l Hl].
    { apply parse_review_keys. by left. }
    unfold sections_get in *. rewrite Hl in *. simpl in Hsummary |- *.
    destruct l as [|summary_text l]; [done|]. cbn [lookup list_lookup].
    set (st1 := (st.1 ++ [_], st.2)).
    destruct (rate_sections_rows r (parsed_sub x y r) st1 Hsec) as (rows2 & -> & _).
    subst st1. cbn [fst snd]. rewrite Hst. cbn [negb]. by apply IH.
Qed.

End SubmitLoops.

Section SubmitBlock.

Variable clock : nat → str.
Variable current_user_id : str.
Variable selected_paper_id : str.
Variable ss : gmap str pyval.

Local Abbreviation submit_now := (submit clock current_user_id selected_paper_id ss).
Local Abbreviation rated r x y :=
  (all_rated ss (expected_keys selected_paper_id r (parsed_sub x y r))).

(** A run that ends without an exception and leaves an expected control
    unrated writes nothing and reports the form as incomplete; a run that
    ends with an exception writes nothing either. *)
Lemma submit_incomplete_writes_nothing (x y : json) log :
  rated V5_3 x y && rated V5_5 x y = false →
  submit_now x y log = inl IndexError ∨
  ∃ text, submit_now x y log = inr (log, Error text).
Proof.
  intros Hnot. unfold submit.
  destruct (rate_variants _ _ _ _ _ _ _ _) as [[]|[records valid]] eqn:Hloop;
    [by left|].
  apply rate_variants_valid in Hloop. cbn [forallb snd] in Hloop.
  rewrite andb_true_l, andb_true_r, Hnot in Hloop. subst valid. eauto.
Qed.

(** Rows are written only when every expected control of both variants is
    rated, and then they are the expected rows, in order, appended to the
    log. *)
Lemma submit_success_inv (x y : json) log log' text :
  submit_now x y log = inr (log', Success text) →
  rated V5_3 x y = true ∧ rated V5_5 x y = true ∧
  ∃ rows,
    log' = save_results rows log ∧
    row_place <$> rows =
      expected_places V5_3 (parsed_sub x y V5_3)
      ++ expected_places V5_5 (parsed_sub x y V5_5).
Proof.
  unfold submit.
  destruct (rate_variants _ _ _ _ _ _ _ _) as [[]|[records valid]] eqn:Hloop;
    [done|].
  destruct valid; [|done]. intros [= <- _].
  pose proof (rate_variants_valid _ _ _ _ _ _ _ _ _ _ Hloop) as Hvalid.
  cbn [forallb snd] in Hvalid. symmetry in Hvalid.
  rewrite andb_true_l, andb_true_r in Hvalid.
  apply andb_true_iff in Hvalid as [H53 H55].
  apply rate_variants_rows in Hloop as (rows & -> & Hplaces).
  split_and!; [done..|]. exists rows. split; [done|].
  rewrite Hplaces. cbn [flat_map]. by rewrite app_nil_r.
Qed.

(** When every expected control is rated and both variants have a parsed
    Summary entry, the rows are written: one per expected place. *)
Lemma submit_complete (x y : json) log :
  rated V5_3 x y = true → rated V5_5 x y = true →
  sections_get (parsed_sub x y V5_3) SUMMARY [] ≠ [] →
  sections_get (parsed_sub x y V5_5) SUMMARY [] ≠ [] →
  ∃ rows text,
    submit_now x y log = inr (save_results rows log, Success text) ∧
    row_place <$> rows =
      expected_places V5_3 (parsed_sub x y V5_3)
      ++ expected_places V5_5 (parsed_sub x y V5_5).
Proof.
  intros H53 H55 Hs53 Hs55.
  destruct (rate_variants_total clock current_user_id selected_paper_id ss
              [V5_3; V5_5] x y ([], true) eq_refl) as [records Hloop].
  { by repeat constructor. }
  pose proof (rate_variants_rows _ _ _ _ _ _ _ _ _ Hloop) as (rows & -> & Hp).
  exists rows. eexists. unfold submit. rewrite Hloop. split; [done|].
  rewrite Hp. cbn [flat_map]. by rewrite app_nil_r.
Qed.

(** Without a parsed Summary entry for a variant whose Summary control is
    rated, building the Summary row raises. *)
Lemma submit_empty_summary_raises (x y : json) log :
  unrated (session_get ss (summary_key selected_paper_id V5_3)) = false →
  sections_get (parsed_sub x y V5_3) SUMMARY [] = [] →
  submit_now x y log = inl IndexError.
Proof.
  intros Hrated Hempty. unfold submit. cbn [rate_variants].
  fold (parsed_sub x y V5_3). rewrite Hrated.
  assert (is_Some (parsed_sub x y V5_3 !! SUMMARY)) as [l Hl].
  { apply parse_review_keys. by left. }
  unfold sections_get in *. rewrite Hl in *. simpl in Hempty. by subst l.
Qed.

End SubmitBlock.

(** A control of the form holds nothing or one of its options; if the
    submit block accepts it, it holds one of the four agreement levels. *)
Lemma rated_is_agreement_level (v : pyval) :
  v ∈ PNone :: (PStr <$> GRADING_OPTIONS) → unrated v = false →
  v ∈ agreement_levels.
Proof.
  intros Hin Hrated. unfold agreement_levels.
  apply elem_of_cons in Hin as [->|Hin]; [done|].
  cbn [GRADING_OPTIONS fmap list_fmap] in Hin.
  apply elem_of_cons in Hin as [->|Hin]; [done|]. exact Hin.
Qed.

(** The two extractions agree on a string payload and on a dict payload
    with a truthy "inference_review" entry. *)
Lemma submit_text_render_text_agree (raw : json) :
  match raw with
  | JStr _ => True
  | JDict d => truthy (dict_get d INFERENCE_REVIEW (JStr [])) = true
  | _ => False
  end →
  submit_text raw = render_text raw.
Proof.
  destruct raw; try done. intros Ht. simpl. unfold py_or. by rewrite Ht.
Qed.

Section SubmitClaims.

(** C1, where the code departs from it.  The text the submit block parses
    is not the text the form was rendered from when the payload is absent
    or is a dict with its text under "prediction": the render path falls
    back to the empty string and to "prediction", the submit path does
    neither, and the two parsed reviews differ in their Summary lists. *)
Theorem submit_parse_differs_from_render :
  parse_review (submit_text JNone) !! SUMMARY = Some [PLACEHOLDER] ∧
  parse_review (render_text JNone) !! SUMMARY = Some [] ∧
  parse_review (submit_text prediction_only_review) !! SUMMARY = Some [] ∧
  parse_review (render_text prediction_only_review) !! SUMMARY
    = Some [lit "A study."] ∧
  parse_review (submit_text prediction_only_review) !! STRENGTHS = Some [] ∧
  parse_review (render_text prediction_only_review) !! STRENGTHS
    = Some [lit "Point 1"; lit "Point 2"].
Proof. split_and!; vm_compute; reflexivity. Qed.

(** C4, where the code departs from it.  The form is shown, the Summary
    control of variant 5_3 is rated, the text of 5_3 parses to an empty
    Summary list under the key "Summary", so the default of the lookup is
    not used, index 0 does not exist and the submit block ends with
    [IndexError]. *)
Theorem summary_point_text_raises :
  form_shown unsectioned_review (JStr example_text) = true ∧
  unrated (session_get session_summary_only (summary_key (lit "p7") V5_3)) = false ∧
  parsed_sub unsectioned_review (JStr example_text) V5_3 !! SUMMARY = Some [] ∧
  sections_get (parsed_sub unsectioned_review (JStr example_text) V5_3)
    SUMMARY [ [] ] !! 0 = None ∧
  ∀ clock current_user_id log,
    submit clock current_user_id (lit "p7") session_summary_only
      unsectioned_review (JStr example_text) log = inl IndexError.
Proof. split_and!; vm_compute; reflexivity. Qed.

(** C3, where the code departs from it.  Every expected control of both
    variants holds an agreement level and six rows are due — two for 5_3,
    four for 5_5 — but the text of 5_3 has no Summary section, and the
    submit block ends with [IndexError] before any row is written. *)
Theorem submit_fully_rated_raises :
  form_shown strengths_only_review (JStr example_text) = true ∧
  all_rated session_all_rated
    (expected_keys (lit "p7") V5_3
       (parsed_sub strengths_only_review (JStr example_text) V5_3)) = true ∧
  all_rated session_all_rated
    (expected_keys (lit "p7") V5_5
       (parsed_sub strengths_only_review (JStr example_text) V5_5)) = true ∧
  Forall (λ key, session_get session_all_rated key ∈ agreement_levels)
    (expected_keys (lit "p7") V5_3
       (parsed_sub strengths_only_review (JStr example_text) V5_3)
     ++ expected_keys (lit "p7") V5_5
          (parsed_sub strengths_only_review (JStr example_text) V5_5)) ∧
  length
    (expected_places V5_3 (parsed_sub strengths_only_review (JStr example_text) V5_3)
     ++ expected_places V5_5
          (parsed_sub strengths_only_review (JStr example_text) V5_5)) = 6 ∧
  ∀ clock current_user_id log,
    submit clock current_user_id (lit "p7") session_all_rated
      strengths_only_review (JStr example_text) log = inl IndexError.
Proof.
  split_and!; try (vm_compute; reflexivity).
  vm_compute. repeat constructor.
Qed.

(** C2, where the code departs from it.  The last point of variant 5_5
    is an expected control and still holds the sentinel, yet the submit
    block does not report the form as incomplete: the text of 5_3 has no
    Summary section and the run ends with [IndexError].  Nothing is
    written. *)
Theorem submit_unset_point_raises :
  form_shown unsectioned_review (JStr example_text) = true ∧
  expected_keys (lit "p7") V5_5
    (parsed_sub unsectioned_review (JStr example_text) V5_5)
    = [lit "p7_5_5_Summary"; lit "p7_5_5_Strengths_0";
       lit "p7_5_5_Strengths_1"; lit "p7_5_5_Questions_0"] ∧
  session_get session_last_unset (lit "p7_5_5_Questions_0") = PStr SELECT ∧
  ∀ clock current_user_id log,
    submit clock current_user_id (lit "p7") session_last_unset
      unsectioned_review (JStr example_text) log = inl IndexError.
Proof. split_and!; vm_compute; reflexivity. Qed.

End SubmitClaims.

(** * Further properties *)

(** ** Strings *)

Section Strings.

Implicit Types s t pat piece cur : str.

Lemma occurs_refl s : occurs s s.
Proof. exists [], []. by rewrite app_nil_r. Qed.

Lemma occurs_trans s t u : occurs s t → occurs t u → occurs s u.
Proof.
  intros (a & b & ->) (a' & b' & ->). exists (a' ++ a), (b ++ b').
  by rewrite <-!(assoc_L (++)).
Qed.

Lemma occurs_app_l pat s t : occurs pat s → occurs pat (s ++ t).
Proof.
  intros (a & b & ->). exists a, (b ++ t). by rewrite <-!(assoc_L (++)).
Qed.

Lemma occurs_app_r pat s t : occurs pat t → occurs pat (s ++ t).
Proof.
  intros (a & b & ->). exists (s ++ a), b. by rewrite <-!(assoc_L (++)).
Qed.

Lemma drop_while_occurs (p : N → bool) s : occurs (drop_while p s) s.
Proof.
  induction s as [|ch s IH]; simpl; [apply occurs_refl|].
  destruct (p ch); [|apply occurs_refl].
  by apply (occurs_app_r _ [ch]).
Qed.

Lemma occurs_reverse pat s : occurs pat s → occurs (reverse pat) (reverse s).
Proof.
  intros (a & b & ->). exists (reverse b), (reverse a).
  by rewrite !reverse_app, <-!(assoc_L (++)).
Qed.

Lemma strip_occurs s : occurs (strip s) s.
Proof.
  unfold strip, rstrip, lstrip.
  eapply occurs_trans; [|apply (drop_while_occurs isspace)].
  rewrite <-(reverse_involutive (drop_while isspace s)) at 2.
  apply occurs_reverse, drop_while_occurs.
Qed.

Lemma lstrip_char_occurs (ch : N) s : occurs (lstrip_char ch s) s.
Proof. apply drop_while_occurs. Qed.

Lemma drop_while_idemp (p : N → bool) s :
  drop_while p (drop_while p s) = drop_while p s.
Proof.
  induction s as [|ch s IH]; simpl; [done|].
  destruct (p ch) eqn:Hp; [done|]. simpl. by rewrite Hp.
Qed.

Lemma drop_while_snoc (p : N → bool) s (ch : N) :
  p ch = false → drop_while p (s ++ [ch]) = drop_while p s ++ [ch].
Proof.
  intros Hp. induction s as [|ch' s IH]; simpl; [by rewrite Hp|].
  by destruct (p ch').
Qed.

Lemma rstrip_cons (ch : N) s :
  isspace ch = false → rstrip (ch :: s) = ch :: rstrip s.
Proof.
  intros Hp. unfold rstrip.
  by rewrite reverse_cons, drop_while_snoc, reverse_app by done.
Qed.

Lemma rstrip_idemp s : rstrip (rstrip s) = rstrip s.
Proof. unfold rstrip. by rewrite reverse_involutive, drop_while_idemp. Qed.

(** Stripping twice is stripping once. *)
Lemma strip_idemp s : strip (strip s) = strip s.
Proof.
  unfold strip.
  assert (lstrip (rstrip (lstrip s)) = rstrip (lstrip s)) as ->;
    [|apply rstrip_idemp].
  unfold lstrip at 2 3.
  destruct (drop_while isspace s) as [|ch r] eqn:Hd; [done|].
  apply drop_while_head in Hd. rewrite rstrip_cons by done.
  unfold lstrip. simpl. by rewrite Hd.
Qed.

End Strings.

(** ** Splitting into raw points *)

Section Split.

Implicit Types s cur piece : str.

Lemma split_from_unfold cur (ch d : N) s :
  split_newline_hyphen_from cur (ch :: d :: s) =
    if bool_decide (ch = LF) && bool_decide (d = HYPHEN)
    then cur :: split_newline_hyphen_from [] s
    else split_newline_hyphen_from (cur ++ [ch]) (d :: s).
Proof. done. Qed.

Lemma split_from_cons_bounded n : ∀ s cur,
  length s ≤ n →
  ∃ piece rest, split_newline_hyphen_from cur s = piece :: rest.
Proof.
  induction n as [|n IH]; intros s cur Hn.
  - destruct s; simpl in *; [eauto|lia].
  - destruct s as [|ch [|d s]]; [simpl; eauto..|].
    rewrite split_from_unfold. simpl in Hn.
    destruct (_ && _); [eauto|]. apply IH. simpl. lia.
Qed.

Lemma split_from_cons cur s :
  ∃ piece rest, split_newline_hyphen_from cur s = piece :: rest.
Proof. by apply (split_from_cons_bounded (length s)). Qed.

Lemma join_cons piece piece' rest :
  join_newline_hyphen (piece :: piece' :: rest) =
    piece ++ SEPARATOR ++ join_newline_hyphen (piece' :: rest).
Proof. done. Qed.

Lemma split_from_join_bounded n : ∀ s cur,
  length s ≤ n →
  join_newline_hyphen (split_newline_hyphen_from cur s) = cur ++ s.
Proof.
  induction n as [|n IH]; intros s cur Hn.
  - destruct s; simpl in *; [by rewrite app_nil_r|lia].
  - destruct s as [|ch [|d s]]; [by rewrite app_nil_r|done|].
    rewrite split_from_unfold. simpl in Hn.
    destruct (bool_decide (ch = LF) && bool_decide (d = HYPHEN)) eqn:Hsep.
    + apply andb_true_iff in Hsep as [->%bool_decide_eq_true ->%bool_decide_eq_true].
      destruct (split_from_cons [] s) as (piece & rest & Hsplit).
      rewrite Hsplit, join_cons, <-Hsplit, IH by lia. done.
    + rewrite IH by (simpl; lia). by rewrite <-(assoc_L (++)).
Qed.

Lemma split_from_occurs_bounded n : ∀ s cur piece,
  length s ≤ n →
  piece ∈ split_newline_hyphen_from cur s → occurs piece (cur ++ s).
Proof.
  induction n as [|n IH]; intros s cur piece Hn.
  - destruct s; simpl in *; [|lia]. intros ->%list_elem_of_singleton.
    rewrite app_nil_r. apply occurs_refl.
  - destruct s as [|ch [|d s]].
    + intros ->%list_elem_of_singleton. rewrite app_nil_r. apply occurs_refl.
    + intros ->%list_elem_of_singleton. apply occurs_refl.
    + rewrite split_from_unfold. simpl in Hn.
      destruct (bool_decide (ch = LF) && bool_decide (d = HYPHEN)).
      * intros [->|Hin]%elem_of_cons.
        -- apply occurs_app_l, occurs_refl.
        -- apply (IH s [] piece) in Hin; [|lia].
           apply occurs_app_r. by apply (occurs_app_r _ [ch; d]).
      * intros Hin. apply IH in Hin; [|simpl; lia].
        by rewrite <-(assoc_L (++)) in Hin.
Qed.

(** A separator in [l ++ [d]] lies in [l] or is made of the last character
    of [l] and [d]. *)
Lemma occurs_separator_snoc (l : str) (d : N) :
  occurs SEPARATOR (l ++ [d]) →
  occurs SEPARATOR l ∨ (∃ l', l = l' ++ [LF]) ∧ d = HYPHEN.
Proof.
  intros (a & b & Heq). destruct b as [|e b _] using rev_ind.
  - right. rewrite app_nil_r in Heq.
    change SEPARATOR with ([LF] ++ [HYPHEN]) in Heq.
    rewrite !(assoc_L (++)) in Heq. apply app_inj_tail in Heq as [-> ->]. eauto.
  - left. rewrite !(assoc_L (++)) in Heq. apply app_inj_tail in Heq as [-> _].
    exists a, b. by rewrite <-!(assoc_L (++)).
Qed.

Lemma not_occurs_separator_short (l : str) :
  length l ≤ 1 → ¬ occurs SEPARATOR l.
Proof.
  intros Hlen (a & b & ->). rewrite !length_app in Hlen. simpl in Hlen. lia.
Qed.

Lemma split_from_no_separator_bounded n : ∀ s cur piece,
  length s ≤ n →
  ¬ occurs SEPARATOR (cur ++ take 1 s) →
  piece ∈ split_newline_hyphen_from cur s → ¬ occurs SEPARATOR piece.
Proof.
  induction n as [|n IH]; intros s cur piece Hn Hcur.
  - destruct s; simpl in *; [|lia]. intros ->%list_elem_of_singleton.
    by rewrite app_nil_r in Hcur.
  - destruct s as [|ch [|d s]].
    + intros ->%list_elem_of_singleton. by rewrite app_nil_r in Hcur.
    + by intros ->%list_elem_of_singleton.
    + rewrite split_from_unfold. simpl in Hn. cbn [take] in Hcur.
      destruct (bool_decide (ch = LF) && bool_decide (d = HYPHEN)) eqn:Hsep.
      * intros [->|Hin]%elem_of_cons.
        -- intros Ho. apply Hcur. by apply occurs_app_l.
        -- revert Hin. apply IH; [lia|].
           apply not_occurs_separator_short. destruct s; simpl; lia.
      * apply IH; [simpl; lia|]. cbn [take]. intros Ho.
        apply occurs_separator_snoc in Ho as [Ho|[[l' Hl'] ->]]; [done|].
        apply app_inj_tail in Hl' as [_ ->].
        by rewrite !bool_decide_eq_true_2 in Hsep.
Qed.

End Split.

(** ** What the parser returns *)

Section ParsedSections.

Implicit Types text g p : str.

Lemma parse_review_weaknesses text :
  parse_review (JStr text) !! WEAKNESSES =
    Some (bullet_list (search_until (bold WEAKNESSES) (bold QUESTIONS) text)).
Proof. by rewrite parse_review_str. Qed.

Lemma parse_review_questions text :
  parse_review (JStr text) !! QUESTIONS =
    Some (bullet_list (search_rest (bold QUESTIONS) text)).
Proof. by rewrite parse_review_str. Qed.

Lemma search_until_occurs marker stop text g :
  search_until marker stop text = Some g → occurs g text.
Proof.
  unfold search_until.
  destruct (find_literal marker text) as [[a rest]|] eqn:Hf; [|done].
  apply find_literal_Some in Hf as ->.
  destruct (find_literal stop rest) as [[g' r]|] eqn:Hg; intros [= <-].
  - apply find_literal_Some in Hg as ->.
    apply occurs_app_r, occurs_app_r, occurs_app_l, occurs_refl.
  - apply occurs_app_r, occurs_app_r, occurs_refl.
Qed.

Lemma search_rest_occurs marker text g :
  search_rest marker text = Some g → occurs g text.
Proof.
  unfold search_rest.
  destruct (find_literal marker text) as [[a rest]|] eqn:Hf; [|done].
  apply find_literal_Some in Hf as ->. intros [= <-].
  apply occurs_app_r, occurs_app_r, occurs_refl.
Qed.

Lemma clean_points_elem raw p :
  p ∈ clean_points raw →
  p ≠ [] ∧ trimmed p ∧ ∃ point, point ∈ raw ∧ occurs p point.
Proof.
  induction raw as [|point raw IH]; simpl; [by intros ?%elem_of_nil|].
  destruct (str_truthy _) eqn:Ht.
  - intros [->|Hin]%elem_of_cons.
    + split_and!.
      * by destruct (strip _).
      * apply strip_idemp.
      * exists point. split; [by left|].
        eapply occurs_trans; [apply strip_occurs|].
        eapply occurs_trans; [apply lstrip_char_occurs|apply strip_occurs].
    + destruct (IH Hin) as (? & ? & q & ? & ?). split_and!; [done..|].
      exists q. split; [by right|done].
  - intros Hin. destruct (IH Hin) as (? & ? & q & ? & ?). split_and!; [done..|].
    exists q. split; [by right|done].
Qed.

Lemma bullet_list_elem (group : option str) p :
  p ∈ bullet_list group →
  p ≠ [] ∧ trimmed p ∧ ¬ occurs SEPARATOR p ∧
  ∃ g, group = Some g ∧ occurs p g.
Proof.
  destruct group as [g|]; simpl; [|by intros ?%elem_of_nil].
  intros (Hne & Htrim & point & Hpoint & Hocc)%clean_points_elem.
  unfold split_newline_hyphen in Hpoint. split_and!; [done..| |].
  - intros Hsep.
    eapply (split_from_no_separator_bounded _ _ _ _ (le_n _)); [|exact Hpoint|].
    + apply not_occurs_separator_short. simpl. rewrite length_take. lia.
    + by eapply occurs_trans.
  - exists g. split; [done|].
    apply (split_from_occurs_bounded _ _ _ _ (le_n _)) in Hpoint.
    eapply occurs_trans; [exact Hocc|].
    eapply occurs_trans; [exact Hpoint|apply strip_occurs].
Qed.

Lemma summary_block_elem (group : option str) p :
  p ∈ summary_block group →
  p ≠ [] ∧ trimmed p ∧ ∃ g, group = Some g ∧ occurs p g.
Proof.
  destruct group as [g|]; simpl; [|by intros ?%elem_of_nil].
  destruct (strip g) eqn:Hs; simpl; [by intros ?%elem_of_nil|].
  intros ->%list_elem_of_singleton. split_and!; [done| |].
  - unfold trimmed. by rewrite <-Hs, strip_idemp.
  - exists g. split; [done|]. rewrite <-Hs. apply strip_occurs.
Qed.

End ParsedSections.

Section ParserProperties.

Implicit Types text a g r e p : str.

Local Ltac section_lookup :=
  unfold sections_get;
  rewrite ?parse_review_summary, ?parse_review_strengths,
    ?parse_review_weaknesses, ?parse_review_questions;
  cbn [default from_option id].

(** X1.  Whatever its input, the parser returns a dict with exactly the
    four keys "Summary", "Strengths", "Weaknesses" and "Questions". *)
Theorem parse_review_sections_dom (v : json) :
  dom (parse_review v) = ({[SUMMARY; STRENGTHS; WEAKNESSES; QUESTIONS]} : gset str).
Proof.
  assert (∀ x1 x2 x3 x4 : list str,
    dom ({[ SUMMARY := x1; STRENGTHS := x2; WEAKNESSES := x3;
            QUESTIONS := x4 ]} : gmap str (list str))
    = ({[SUMMARY; STRENGTHS; WEAKNESSES; QUESTIONS]} : gset str)) as Hdom.
  { intros. rewrite !dom_insert_L, dom_singleton_L. set_solver. }
  destruct v; try apply Hdom. rewrite parse_review_str. apply Hdom.
Qed.

(** X2.  The Summary list has at most one entry, and an entry is never
    empty and has no whitespace at either end. *)
Theorem parse_review_summary_shape (v : json) :
  length (sections_get (parse_review v) SUMMARY []) ≤ 1 ∧
  Forall (λ p, p ≠ [] ∧ trimmed p) (sections_get (parse_review v) SUMMARY []).
Proof.
  assert (∀ text,
    length (sections_get (parse_review (JStr text)) SUMMARY []) ≤ 1 ∧
    Forall (λ p, p ≠ [] ∧ trimmed p)
      (sections_get (parse_review (JStr text)) SUMMARY [])) as Hstr.
  { intros text. section_lookup. split.
    - unfold summary_block. repeat case_match; simpl; lia.
    - apply Forall_forall. intros p Hp.
      apply summary_block_elem in Hp as (? & ? & _). done. }
  destruct v as [| | | |text| |]; [..|apply Hstr| |];
    (split; [vm_compute; lia|by repeat constructor]).
Qed.

(** X3.  Every bullet point the parser returns, in any of the three
    sections, is non-empty, has no whitespace at either end and contains no
    newline followed by a hyphen. *)
Theorem parse_review_points_clean (v : json) :
  Forall
    (λ sec, Forall (λ p, p ≠ [] ∧ trimmed p ∧ ¬ occurs SEPARATOR p)
              (sections_get (parse_review v) sec []))
    [STRENGTHS; WEAKNESSES; QUESTIONS].
Proof.
  destruct v as [| | | |text| |]; [by repeat constructor..| |
    by repeat constructor|by repeat constructor].
  repeat apply Forall_cons_2; [..|apply Forall_nil_2]; section_lookup;
    apply Forall_forall; intros p Hp;
    apply bullet_list_elem in Hp as (? & ? & ? & _); done.
Qed.

(** X4.  The parser only cuts: every Summary entry and every bullet point
    of the parse of a text is a contiguous piece of that text. *)
Theorem parse_review_entries_from_text text :
  Forall
    (λ sec, Forall (λ p, occurs p text)
              (sections_get (parse_review (JStr text)) sec []))
    [SUMMARY; STRENGTHS; WEAKNESSES; QUESTIONS].
Proof.
  repeat apply Forall_cons_2; [..|apply Forall_nil_2]; section_lookup;
    apply Forall_forall; intros p Hp.
  - apply summary_block_elem in Hp as (_ & _ & g & Hg & Hp).
    eapply occurs_trans; [exact Hp|]. by eapply search_until_occurs.
  - apply bullet_list_elem in Hp as (_ & _ & _ & g & Hg & Hp).
    eapply occurs_trans; [exact Hp|]. by eapply search_until_occurs.
  - apply bullet_list_elem in Hp as (_ & _ & _ & g & Hg & Hp).
    eapply occurs_trans; [exact Hp|]. by eapply search_until_occurs.
  - apply bullet_list_elem in Hp as (_ & _ & _ & g & Hg & Hp).
    eapply occurs_trans; [exact Hp|]. by eapply search_rest_occurs.
Qed.

(** X5.  A section whose own marker does not occur in the text is empty,
    whatever the other markers do. *)
Theorem parse_review_missing_marker text (sec : str) :
  sec ∈ [SUMMARY; STRENGTHS; WEAKNESSES; QUESTIONS] →
  ¬ occurs (bold sec) text →
  sections_get (parse_review (JStr text)) sec [] = [].
Proof.
  intros Hsec Hno. apply find_literal_None in Hno.
  repeat (apply elem_of_cons in Hsec as [->|Hsec]);
    [..|by apply elem_of_nil in Hsec];
    section_lookup; unfold search_until, search_rest; by rewrite Hno.
Qed.

(** X5 on a text with a Summary and a Questions section only. *)
Lemma parse_review_missing_marker_witness :
  sections_get
    (parse_review (JStr (lit "**Summary** Fine. **Questions** - Why?")))
    WEAKNESSES [] = [].
Proof.
  apply parse_review_missing_marker.
  - apply list_elem_of_In. vm_compute. tauto.
  - apply find_literal_None_inv. reflexivity.
Defined.

(** X6.  The Summary block ends at the Strengths marker only: when no
    Strengths marker follows the first Summary marker, the block is the
    whole rest of the text, trimmed, later sections included. *)
Theorem parse_review_summary_unbounded a r :
  first_at (bold SUMMARY) a → ¬ occurs (bold STRENGTHS) r →
  sections_get (parse_review (JStr (a ++ bold SUMMARY ++ r))) SUMMARY [] =
    if str_truthy (strip r) then [strip r] else [].
Proof.
  intros Ha Hr. section_lookup. unfold search_until.
  rewrite (find_literal_first _ _ _ Ha). by rewrite find_literal_None.
Qed.

(** X6 on a text with a Summary and a Weaknesses section. *)
Lemma parse_review_summary_unbounded_witness :
  sections_get
    (parse_review (JStr (lit "**Summary** Fine. **Weaknesses** - Slow")))
    SUMMARY [] = [lit "Fine. **Weaknesses** - Slow"].
Proof.
  apply (parse_review_summary_unbounded [] (lit " Fine. **Weaknesses** - Slow")).
  - apply first_at_find. reflexivity.
  - apply find_literal_None_inv. reflexivity.
Defined.

(** X7.  The Strengths list is made of the text between the first
    Strengths marker and the first Weaknesses marker after it, and the
    Weaknesses list of the text between the first Weaknesses marker and the
    first Questions marker after it: that text is trimmed, cut at every
    newline followed by a hyphen, and each piece is cleaned. *)
Theorem parse_review_bullets_delimited (sec stop : str) a g r :
  (sec, stop) ∈ [(STRENGTHS, WEAKNESSES); (WEAKNESSES, QUESTIONS)] →
  first_at (bold sec) a → first_at (bold stop) g →
  sections_get (parse_review (JStr (a ++ bold sec ++ g ++ bold stop ++ r))) sec []
    = clean_points (split_newline_hyphen (strip g)).
Proof.
  intros Hsec Ha Hg.
  repeat (apply elem_of_cons in Hsec as [[= -> ->]|Hsec]);
    [..|by apply elem_of_nil in Hsec];
    section_lookup; by rewrite (search_until_first _ _ _ _ _ Ha Hg).
Qed.

(** X7 on a Weaknesses section with two bullets. *)
Lemma parse_review_bullets_delimited_witness :
  sections_get
    (parse_review
       (JStr (lit "**Weaknesses**" ++ [LF] ++ lit "- Slow" ++ [LF]
                ++ lit "- Long" ++ [LF] ++ lit "**Questions** - Why?")))
    WEAKNESSES [] = [lit "Slow"; lit "Long"].
Proof.
  apply (parse_review_bullets_delimited WEAKNESSES QUESTIONS []
           ([LF] ++ lit "- Slow" ++ [LF] ++ lit "- Long" ++ [LF])
           (lit " - Why?")).
  - apply list_elem_of_In. vm_compute. tauto.
  - apply first_at_find. reflexivity.
  - apply first_at_find. reflexivity.
Defined.

(** X8.  The Questions list is made of everything after the first
    Questions marker, up to the end of the text, other markers included. *)
Theorem parse_review_questions_rest a e :
  first_at (bold QUESTIONS) a →
  sections_get (parse_review (JStr (a ++ bold QUESTIONS ++ e))) QUESTIONS []
    = clean_points (split_newline_hyphen (strip e)).
Proof.
  intros Ha. section_lookup. unfold search_rest.
  by rewrite (find_literal_first _ _ _ Ha).
Qed.

(** X8 on a text whose Summary section comes after the Questions. *)
Lemma parse_review_questions_rest_witness :
  sections_get
    (parse_review
       (JStr (lit "**Questions**" ++ [LF] ++ lit "- Why?" ++ [LF]
                ++ lit "- How? **Summary** Fine.")))
    QUESTIONS [] = [lit "Why?"; lit "How? **Summary** Fine."].
Proof.
  apply (parse_review_questions_rest []
           ([LF] ++ lit "- Why?" ++ [LF] ++ lit "- How? **Summary** Fine.")).
  apply first_at_find. reflexivity.
Defined.

(** X9.  Splitting loses nothing: the raw points of a section, joined
    again with a newline and a hyphen, give back the content that was
    split. *)
Theorem split_newline_hyphen_join (s : str) :
  join_newline_hyphen (split_newline_hyphen s) = s.
Proof. apply (split_from_join_bounded (length s) s []). lia. Qed.

End ParserProperties.

(** ** Resolver and form guard *)

Section ResolverProperties.

(** X10.  The "not found" signal is exact: the source returned by
    [get_paper_details] is [None] if and only if the paper id is a key of
    none of the four datasets. *)
Theorem get_paper_details_not_found (paper_id : str) (ds : data_store) :
  (get_paper_details paper_id ds).2 = None ↔
  Forall (λ dataset : gmap str json, dataset !! paper_id = None)
    [v5_3 (colm ds); v5_5 (colm ds); v5_3 (neurips ds); v5_5 (neurips ds)].
Proof.
  assert (∀ m : gmap str json,
    py_in paper_id m = false ↔ m !! paper_id = None) as Hin.
  { intros m. unfold py_in. rewrite bool_decide_eq_false.
    rewrite <-eq_None_not_Some. done. }
  rewrite !Forall_cons, <-!Hin. unfold get_paper_details.
  destruct (py_in paper_id (v5_3 (colm ds)));
    destruct (py_in paper_id (v5_5 (colm ds)));
    destruct (py_in paper_id (v5_3 (neurips ds)));
    destruct (py_in paper_id (v5_5 (neurips ds)));
    cbn [orb snd]; split; try done; try (intros (? & ? & ? & ? & _); done).
Qed.

(** X11.  COLM shadows NeurIPS down to the form: when the paper id is a key
    of a COLM dataset and both COLM payloads are falsy (missing, null or
    empty), the resolved payloads do not show the rating form, whatever the
    NeurIPS datasets hold for that id. *)
Theorem colm_entry_shadows_neurips (paper_id : str) (ds : data_store) :
  is_Some (v5_3 (colm ds) !! paper_id) ∨ is_Some (v5_5 (colm ds) !! paper_id) →
  truthy (default JNone (v5_3 (colm ds) !! paper_id)) = false →
  truthy (default JNone (v5_5 (colm ds) !! paper_id)) = false →
  form_shown (get_paper_details paper_id ds).1.1.2
             (get_paper_details paper_id ds).1.2 = false.
Proof.
  intros Hin H53 H55. unfold get_paper_details, py_in, dict_get.
  assert (bool_decide (is_Some (v5_3 (colm ds) !! paper_id))
          || bool_decide (is_Some (v5_5 (colm ds) !! paper_id)) = true) as ->.
  { rewrite orb_true_iff, !bool_decide_eq_true. done. }
  cbn [fst snd]. unfold form_shown. by rewrite H53, H55.
Qed.

(** X11 on an id that COLM maps to null and NeurIPS to a review. *)
Lemma colm_entry_shadows_neurips_witness :
  form_shown
    (get_paper_details (lit "p7")
       (DataStore (Collection {[ lit "p7" := JNone ]} ∅)
                  (Collection {[ lit "p7" := JStr example_text ]} ∅))).1.1.2
    (get_paper_details (lit "p7")
       (DataStore (Collection {[ lit "p7" := JNone ]} ∅)
                  (Collection {[ lit "p7" := JStr example_text ]} ∅))).1.2
  = false.
Proof.
  apply colm_entry_shadows_neurips.
  - left. vm_compute. eauto.
  - reflexivity.
  - reflexivity.
Defined.

End ResolverProperties.

(** ** Order binding *)

Section OrderProperties.

(** X12.  Binding the order of a paper touches one entry of the session
    state only: every other key keeps what it held. *)
Theorem bind_order_frame (selected_paper_id : str) (ss : gmap str pyval)
    (tape : list nat) (key : str) :
  key ≠ session_key selected_paper_id →
  (bind_order selected_paper_id ss tape).1.2 !! key = ss !! key.
Proof.
  intros Hkey. unfold bind_order.
  destruct (negb _); [|done].
  destruct (shuffle _ _) as [opts tape']. cbn [fst snd].
  by rewrite lookup_insert_ne.
Qed.

(** X12 on a session that holds a rating of another paper. *)
Lemma bind_order_frame_witness :
  (bind_order (lit "p7") {[ lit "p8_5_3_Summary" := MOSTLY_AGREE ]} [4]).1.2
    !! lit "p8_5_3_Summary" = Some MOSTLY_AGREE.
Proof.
  refine (bind_order_frame (lit "p7") {[ lit "p8_5_3_Summary" := MOSTLY_AGREE ]}
            [4] (lit "p8_5_3_Summary") _).
  vm_compute. discriminate.
Defined.

End OrderProperties.

(** ** Keys of the rating controls *)

Section ControlKeys.

Implicit Types pid r sec key : str.

Lemma lit_inj : Inj (=) (=) lit.
Proof.
  intros s1 s2 Heq. unfold lit in Heq.
  assert (Inj (=) (=) N_of_ascii) as Hinj.
  { intros a b Hab. apply (f_equal ascii_of_N) in Hab.
    by rewrite !ascii_N_embedding in Hab. }
  apply (inj (fmap N_of_ascii)) in Heq.
  apply (f_equal string_of_list_ascii) in Heq.
  by rewrite !string_of_list_ascii_of_string in Heq.
Qed.

Lemma point_key_inj pid r sec : Inj (=) (=) (point_key pid r sec).
Proof.
  intros i j Heq. unfold point_key in Heq.
  repeat apply app_inv_head in Heq.
  by apply lit_inj, (inj pretty) in Heq.
Qed.

Lemma point_keys_from_seq pid r sec i (points : list str) :
  point_keys_from pid r sec i points =
    point_key pid r sec <$> seq i (length points).
Proof.
  revert i. induction points as [|pt points IH]; intros i; [done|].
  cbn [point_keys_from length seq]. by rewrite fmap_cons, IH.
Qed.

Lemma point_keys_from_NoDup pid r sec i (points : list str) :
  NoDup (point_keys_from pid r sec i points).
Proof.
  rewrite point_keys_from_seq.
  pose proof (point_key_inj pid r sec) as Hinj.
  apply (NoDup_fmap_2 _), NoDup_seq.
Qed.

(** The keys of the controls of a tab are the expected keys of the review
    the tab was rendered from. *)
Lemma render_points_keys pid r sec i (points : list str) :
  widget_keys [([], render_points pid r sec i points)] =
    point_keys_from pid r sec i points.
Proof.
  unfold widget_keys. cbn [flat_map snd]. rewrite app_nil_r.
  revert i. induction points as [|pt points IH]; intros i; [done|].
  cbn [render_points flat_map point_keys_from]. by rewrite IH.
Qed.

Lemma widget_keys_app (tab : str) (els1 els2 : list element) :
  widget_keys [(tab, els1 ++ els2)] =
    widget_keys [(tab, els1)] ++ widget_keys [(tab, els2)].
Proof.
  unfold widget_keys. cbn [flat_map snd]. rewrite !app_nil_r.
  induction els1 as [|el els1 IH]; [done|].
  cbn [app flat_map]. by rewrite IH, (assoc_L (++)).
Qed.

Lemma widget_keys_tab (tab tab' : str) (els : list element) :
  widget_keys [(tab, els)] = widget_keys [(tab', els)].
Proof. done. Qed.

Lemma render_section_keys pid r parsed sec :
  widget_keys [([], render_section pid r parsed sec)] =
    point_keys_from pid r sec 0 (sections_get parsed sec []).
Proof.
  unfold render_section.
  destruct (sections_get parsed sec []) as [|pt points] eqn:Hpts; [done|].
  rewrite !widget_keys_app, render_points_keys.
  change (widget_keys [([], [Markdown (lit "##### " ++ sec)])]) with (@nil str).
  case_bool_decide; by rewrite app_nil_r.
Qed.

Lemma render_tab_keys (tab : str) pid r (raw : json) :
  widget_keys [(tab, render_tab pid r raw)] =
    expected_keys pid r (parse_review (render_text raw)).
Proof.
  rewrite (widget_keys_tab tab []). unfold render_tab. cbn [flat_map].
  rewrite !widget_keys_app, !render_section_keys.
  unfold expected_keys, section_keys. cbn [flat_map]. by rewrite !app_nil_r.
Qed.

Lemma widget_keys_cons (tab : str * list element)
    (form : list (str * list element)) :
  widget_keys (tab :: form) = widget_keys [tab] ++ widget_keys form.
Proof. unfold widget_keys. cbn [flat_map]. by rewrite app_nil_r. Qed.

Lemma render_form_two (pid r1 r2 : str) (x y : json) :
  widget_keys (render_form pid [r1; r2] x y) =
    expected_keys pid r1
      (parse_review (render_text (dict_get (reviews_map x y) r1 JNone)))
    ++ expected_keys pid r2
         (parse_review (render_text (dict_get (reviews_map x y) r2 JNone))).
Proof.
  unfold render_form. cbn [zip_with].
  rewrite widget_keys_cons. by rewrite !render_tab_keys.
Qed.

End ControlKeys.

Section DistinctKeys.

(** A list made of groups is free of duplicates when every group is, every
    element carries the tag of its group and the tags differ. *)
Lemma NoDup_tagged {A B : Type} (f : A → B) (groups : list (B * list A)) :
  NoDup (fst <$> groups) →
  Forall (λ group, NoDup group.2 ∧ Forall (λ a, f a = group.1) group.2) groups →
  NoDup (concat (snd <$> groups)).
Proof.
  induction groups as [|[t g] groups IH]; [constructor|].
  rewrite fmap_cons, NoDup_cons, Forall_cons. cbn [fst snd].
  intros [Ht Htags] [[Hg Hf] Hall]. rewrite fmap_cons. cbn [concat snd].
  apply NoDup_app. split_and!; [done| |by apply IH].
  intros a Ha Hin. apply Ht.
  apply list_elem_of_In, in_concat in Hin as (g' & Hg' & Ha').
  apply list_elem_of_In, list_elem_of_fmap in Hg' as ([t' g''] & -> & Hgroup).
  rewrite Forall_forall in Hf. rewrite <-(Hf a Ha).
  rewrite Forall_forall in Hall. destruct (Hall _ Hgroup) as [_ Hf'].
  rewrite Forall_forall in Hf'. cbn [fst snd] in *.
  rewrite (Hf' a) by by apply list_elem_of_In.
  apply list_elem_of_fmap. by exists (t', g'').
Qed.

Lemma summary_key_tag (pid r : str) :
  length r = 3 →
  key_tag pid (summary_key pid r) = [UNDERSCORE] ++ r ++ lit "_Su".
Proof.
  intros Hr. unfold key_tag, summary_key. rewrite drop_app_length.
  destruct r as [|c1 [|c2 [|c3 [|c4 r]]]]; simpl in Hr; done || lia.
Qed.

Lemma point_keys_tag (pid r sec : str) i (points : list str) :
  length r = 3 → 2 ≤ length sec →
  Forall (λ key, key_tag pid key = [UNDERSCORE] ++ r ++ [UNDERSCORE] ++ take 2 sec)
    (point_keys_from pid r sec i points).
Proof.
  intros Hr Hsec. rewrite point_keys_from_seq, Forall_fmap.
  apply Forall_forall. intros j _. cbn [compose].
  unfold key_tag, point_key. rewrite drop_app_length.
  destruct r as [|c1 [|c2 [|c3 [|c4 r]]]]; simpl in Hr; try lia.
  destruct sec as [|d1 [|d2 sec]]; simpl in Hsec; try lia. done.
Qed.

(** The groups of keys of one variant, with their tags. *)
Lemma expected_keys_groups (pid r : str) (parsed : gmap str (list str)) :
  length r = 3 →
  ∃ groups,
    expected_keys pid r parsed = concat (snd <$> groups) ∧
    fst <$> groups =
      [ [UNDERSCORE] ++ r ++ lit "_Su"; [UNDERSCORE] ++ r ++ lit "_St";
        [UNDERSCORE] ++ r ++ lit "_We"; [UNDERSCORE] ++ r ++ lit "_Qu" ] ∧
    Forall (λ group, NoDup group.2 ∧ Forall (λ a, key_tag pid a = group.1) group.2)
      groups.
Proof.
  intros Hr.
  exists [ ([UNDERSCORE] ++ r ++ lit "_Su", [summary_key pid r]);
           ([UNDERSCORE] ++ r ++ lit "_St",
            point_keys_from pid r STRENGTHS 0 (sections_get parsed STRENGTHS []));
           ([UNDERSCORE] ++ r ++ lit "_We",
            point_keys_from pid r WEAKNESSES 0 (sections_get parsed WEAKNESSES []));
           ([UNDERSCORE] ++ r ++ lit "_Qu",
            point_keys_from pid r QUESTIONS 0 (sections_get parsed QUESTIONS [])) ].
  split_and!; [done..|].
  repeat apply Forall_cons_2; cbn [fst snd]; [..|constructor].
  - split; [apply NoDup_singleton|]. constructor; [|done].
    by apply summary_key_tag.
  - split; [apply point_keys_from_NoDup|].
    by apply (point_keys_tag pid r STRENGTHS); [|vm_compute; lia].
  - split; [apply point_keys_from_NoDup|].
    by apply (point_keys_tag pid r WEAKNESSES); [|vm_compute; lia].
  - split; [apply point_keys_from_NoDup|].
    by apply (point_keys_tag pid r QUESTIONS); [|vm_compute; lia].
Qed.

Lemma expected_keys_two_NoDup (pid r1 r2 : str)
    (parsed1 parsed2 : gmap str (list str)) :
  (r1, r2) ∈ [(V5_3, V5_5); (V5_5, V5_3)] →
  NoDup (expected_keys pid r1 parsed1 ++ expected_keys pid r2 parsed2).
Proof.
  intros Hr.
  assert (length r1 = 3 ∧ length r2 = 3) as [Hr1 Hr2].
  { repeat (apply elem_of_cons in Hr as [[= -> ->]|Hr]); [done..|].
    by apply elem_of_nil in Hr. }
  destruct (expected_keys_groups pid r1 parsed1 Hr1) as (g1 & -> & Ht1 & Hg1).
  destruct (expected_keys_groups pid r2 parsed2 Hr2) as (g2 & -> & Ht2 & Hg2).
  rewrite <-concat_app, <-fmap_app.
  apply (NoDup_tagged (key_tag pid)); [|by apply Forall_app].
  rewrite fmap_app, Ht1, Ht2.
  repeat (apply elem_of_cons in Hr as [[= -> ->]|Hr]);
    [..|by apply elem_of_nil in Hr];
    apply (bool_decide_unpack _); vm_compute; reflexivity.
Qed.

End DistinctKeys.

(** The parse of a text without markers; the same fact as in C9, kept apart
    for the proofs below. *)
Lemma parse_review_no_markers (text : str) :
  no_markers text →
  parse_review (JStr text) =
    {[ SUMMARY := []; STRENGTHS := []; WEAKNESSES := []; QUESTIONS := [] ]}.
Proof.
  intros (Hsum & Hstr & Hweak & Hq).
  rewrite parse_review_str. unfold search_until, search_rest.
  by rewrite !find_literal_None.
Qed.

Section FormProperties.

Implicit Types pid r sec key : str.

(** X14.  A form has exactly one rating control for the Summary of each
    slot, also when the Summary is empty, and one for each parsed point of
    the text shown in the slot, and no other: its keys are, slot by slot,
    the Summary key and the point keys of the review parsed at render
    time. *)
Theorem render_form_controls pid (r1 r2 : str) (x y : json) :
  widget_keys (render_form pid [r1; r2] x y) =
    flat_map
      (λ r, expected_keys pid r
              (parse_review (render_text (dict_get (reviews_map x y) r JNone))))
      [r1; r2].
Proof. rewrite render_form_two. cbn [flat_map]. by rewrite app_nil_r. Qed.

(** X15.  No two rating controls of a form share a key, whichever variant
    is bound to slot A. *)
Theorem render_form_keys_distinct pid (x y : json) :
  NoDup (widget_keys (render_form pid [V5_3; V5_5] x y)) ∧
  NoDup (widget_keys (render_form pid [V5_5; V5_3] x y)).
Proof.
  split; rewrite render_form_two; apply expected_keys_two_NoDup.
  - by left.
  - right. by left.
Qed.

(** X16.  When both payloads are strings, the controls the submit block
    checks are exactly the controls the form rendered, variant by
    variant. *)
Theorem render_submit_keys_agree pid (text_53 text_55 : str) :
  widget_keys (render_form pid [V5_3; V5_5] (JStr text_53) (JStr text_55)) =
    expected_keys pid V5_3 (parsed_sub (JStr text_53) (JStr text_55) V5_3)
    ++ expected_keys pid V5_5 (parsed_sub (JStr text_53) (JStr text_55) V5_5).
Proof. by rewrite render_form_two. Qed.

(** X17.  When the text shown in a slot has no section marker — an absent
    payload, an empty string, plain prose — the tab holds the Summary
    heading, the fallback text "No summary found.", the Summary control and
    a divider, and nothing else. *)
Theorem render_tab_fallback pid r (raw : json) (text : str) :
  render_text raw = JStr text → no_markers text →
  render_tab pid r raw =
    [Markdown (lit "##### Summary"); Markdown (lit "No summary found.");
     Selectbox (lit "Is this summary accurate?") GRADING_OPTIONS
       (summary_key pid r);
     Divider].
Proof.
  intros Htext Hno. unfold render_tab. rewrite Htext.
  by rewrite (parse_review_no_markers text Hno).
Qed.

End FormProperties.

(** X17 on an absent payload. *)
Lemma render_tab_fallback_witness :
  render_tab (lit "p7") V5_5 JNone =
    [Markdown (lit "##### Summary"); Markdown (lit "No summary found.");
     Selectbox (lit "Is this summary accurate?") GRADING_OPTIONS
       (lit "p7_5_5_Summary");
     Divider].
Proof.
  apply (render_tab_fallback (lit "p7") V5_5 JNone []).
  - reflexivity.
  - repeat split; apply find_literal_None_inv; reflexivity.
Defined.

Section OrderAndControls.

Implicit Types pid r sec key : str.

Lemma length_lit_app (s : string) (t : str) :
  length (lit s ++ t) = String.length s + length t.
Proof.
  rewrite length_app. f_equal. unfold lit. rewrite length_fmap.
  induction s as [|c s IH]; simpl; congruence.
Qed.

Lemma length_summary_key pid r :
  length (summary_key pid r) = length pid + length r + 9.
Proof.
  unfold summary_key. rewrite !length_app.
  change (length (lit "_Summary")) with 8. cbn [length]. lia.
Qed.

Lemma length_point_key pid r sec i :
  length pid + length sec + 3 ≤ length (point_key pid r sec i).
Proof. unfold point_key. rewrite !length_app. cbn [length]. lia. Qed.

Lemma expected_key_length pid r (parsed : gmap str (list str)) key :
  key ∈ expected_keys pid r parsed → length pid + 9 ≤ length key.
Proof.
  unfold expected_keys, section_keys. cbn [flat_map].
  rewrite elem_of_cons, !elem_of_app, !point_keys_from_seq, !list_elem_of_fmap.
  intros [->|[(i & -> & _)|[(i & -> & _)|[(i & -> & _)|[]%elem_of_nil]]]].
  - rewrite length_summary_key. lia.
  - pose proof (length_point_key pid r STRENGTHS i) as H.
    change (length STRENGTHS) with 9 in H. lia.
  - pose proof (length_point_key pid r WEAKNESSES i) as H.
    change (length WEAKNESSES) with 10 in H. lia.
  - pose proof (length_point_key pid r QUESTIONS i) as H.
    change (length QUESTIONS) with 9 in H. lia.
Qed.

Lemma expected_key_not_session_key pid r (parsed : gmap str (list str)) key :
  key ∈ expected_keys pid r parsed → key ≠ session_key pid.
Proof.
  intros Hlen%expected_key_length ->. unfold session_key in Hlen.
  rewrite length_lit_app in Hlen. cbn [String.length] in Hlen. lia.
Qed.

(** X18.  On the first access the form shows each variant in exactly one
    slot: the tabs are "Review Set A" and "Review Set B", and they hold the
    5_3 and the 5_5 review in one of the two orders. *)
Theorem bound_order_shows_both pid (ss : gmap str pyval) (tape : list nat)
    (x y : json) :
  ss !! session_key pid = None →
  ∃ review_order,
    (bind_order pid ss tape).1.1 = Some (PList review_order) ∧
    (render_form pid review_order x y =
       [(lit "Review Set A", render_tab pid V5_3 x);
        (lit "Review Set B", render_tab pid V5_5 y)] ∨
     render_form pid review_order x y =
       [(lit "Review Set A", render_tab pid V5_5 y);
        (lit "Review Set B", render_tab pid V5_3 x)]).
Proof.
  intros Hss.
  destruct (bind_order_first pid ss tape) as (v & ss1 & tape1 & -> & _ & Hv).
  destruct (Hv Hss) as [-> | ->]; eexists; (split; [done|]); [by left|by right].
Qed.

(** X18 on a fresh session with draw 2. *)
Lemma bound_order_shows_both_witness :
  ∃ review_order,
    (bind_order (lit "p7") ∅ [2]).1.1 = Some (PList review_order) ∧
    (render_form (lit "p7") review_order (JStr example_text) JNone =
       [(lit "Review Set A", render_tab (lit "p7") V5_3 (JStr example_text));
        (lit "Review Set B", render_tab (lit "p7") V5_5 JNone)] ∨
     render_form (lit "p7") review_order (JStr example_text) JNone =
       [(lit "Review Set A", render_tab (lit "p7") V5_5 JNone);
        (lit "Review Set B", render_tab (lit "p7") V5_3 (JStr example_text))]).
Proof.
  apply (bound_order_shows_both (lit "p7") ∅ [2] (JStr example_text) JNone).
  reflexivity.
Defined.

(** X19.  Rating a control of a paper never disturbs the order bound for
    that paper: after any value is stored under the key of one of the
    paper's controls, the next access returns the same order and draws
    nothing. *)
Theorem bind_order_survives_rating pid (ss : gmap str pyval) (tape tape' : list nat)
    r (parsed : gmap str (list str)) key (v : pyval) :
  key ∈ expected_keys pid r parsed →
  bind_order pid (<[key := v]> (bind_order pid ss tape).1.2) tape' =
    ((bind_order pid ss tape).1.1, <[key := v]> (bind_order pid ss tape).1.2, tape').
Proof.
  intros Hkey%expected_key_not_session_key.
  destruct (bind_order_first pid ss tape) as (v0 & ss1 & tape1 & -> & Hv0 & _).
  cbn [fst snd]. apply bind_order_again. by rewrite lookup_insert_ne.
Qed.

(** X19 on the second Strengths point of variant 5_5. *)
Lemma bind_order_survives_rating_witness :
  bind_order (lit "p7")
    (<[lit "p7_5_5_Strengths_1" := MOSTLY_AGREE]> (bind_order (lit "p7") ∅ [2]).1.2)
    [7] =
  (Some (PList [V5_5; V5_3]),
   <[lit "p7_5_5_Strengths_1" := MOSTLY_AGREE]> (bind_order (lit "p7") ∅ [2]).1.2,
   [7]).
Proof.
  refine (bind_order_survives_rating (lit "p7") ∅ [2] [7] V5_5
            (parse_review (JStr example_text)) (lit "p7_5_5_Strengths_1")
            MOSTLY_AGREE _).
  apply list_elem_of_In. vm_compute. tauto.
Defined.

End OrderAndControls.

(** ** The submit block, in general *)

Section SubmitInvariant.

Variable clock : nat → str.
Variable current_user_id : str.
Variable selected_paper_id : str.
Variable ss : gmap str pyval.
Variables x y : json.

Local Abbreviation faithful :=
  (row_faithful ss x y current_user_id selected_paper_id).

(** One turn of the loop over the variants, with the Summary lookup read
    off the parsed list. *)
Lemma rate_variants_step (r : str) r_types st :
  rate_variants clock current_user_id selected_paper_id ss (r :: r_types) x y st =
    if unrated (session_get ss (summary_key selected_paper_id r))
    then inr (st.1, false)
    else
      match sections_get (parsed_sub x y r) SUMMARY [] with
      | [] => inl IndexError
      | summary_text :: _ =>
          let st2 :=
            rate_sections clock current_user_id selected_paper_id ss r
              (parsed_sub x y r)
              (st.1 ++ [Row (clock (length st.1)) current_user_id
                          selected_paper_id r SUMMARY 0 summary_text
                          (session_get ss (summary_key selected_paper_id r))],
               st.2) in
          if negb st2.2 then inr st2
          else rate_variants clock current_user_id selected_paper_id ss
                 r_types x y st2
      end.
Proof.
  cbn [rate_variants]. fold (parsed_sub x y r).
  destruct (unrated _); [done|].
  assert (is_Some (parsed_sub x y r !! SUMMARY)) as [l Hl].
  { apply parse_review_keys. by left. }
  unfold sections_get. rewrite Hl. cbn [default from_option id].
  by destruct l.
Qed.

Lemma rate_points_faithful (r sec : str) i points st :
  r ∈ [V5_3; V5_5] → sec ≠ SUMMARY →
  (∀ j txt, points !! j = Some txt →
     sections_get (parsed_sub x y r) sec [] !! (i + j) = Some txt) →
  Forall faithful st.1 →
  Forall faithful
    (rate_points clock current_user_id selected_paper_id ss r sec i points st).1.
Proof.
  intros Hr Hsec. revert i st.
  induction points as [|txt points IH]; intros i st Hpts Hst; [done|].
  cbn [rate_points]. destruct (unrated _) eqn:Hu; [done|].
  apply IH.
  - intros j txt' Hj. replace (S i + j) with (i + S j) by lia. by apply Hpts.
  - cbn [fst]. apply Forall_app. split; [done|]. constructor; [|done].
    unfold row_faithful, row_key. cbn [user paper_id review_type section
      point_index point_text rating].
    rewrite decide_False by done. split_and!; try done.
    specialize (Hpts 0 txt eq_refl). by rewrite Nat.add_0_r in Hpts.
Qed.

Lemma rate_sections_faithful (r : str) st :
  r ∈ [V5_3; V5_5] →
  Forall faithful st.1 →
  Forall faithful
    (rate_sections clock current_user_id selected_paper_id ss r
       (parsed_sub x y r) st).1.
Proof.
  intros Hr Hst. unfold rate_sections. cbn [foldl].
  repeat (apply rate_points_faithful; [done|by vm_compute|by intros|]).
  done.
Qed.

Lemma rate_variants_faithful r_types st records valid :
  Forall (λ r, r ∈ [V5_3; V5_5]) r_types →
  Forall faithful st.1 →
  rate_variants clock current_user_id selected_paper_id ss r_types x y st
    = inr (records, valid) →
  Forall faithful records.
Proof.
  revert st. induction r_types as [|r r_types IH]; intros st Hrs Hst.
  - simpl. intros [= ->]. done.
  - apply Forall_cons in Hrs as [Hr Hrs]. rewrite rate_variants_step.
    destruct (unrated _) eqn:Hu; [by intros [= <- _]|].
    destruct (sections_get (parsed_sub x y r) SUMMARY []) as [|t l] eqn:Hsum;
      [done|].
    cbn zeta.
    match goal with
    | |- context [rate_sections _ _ _ _ _ _ ?st1] =>
        assert (Forall faithful st1.1) as Hst1
    end.
    { cbn [fst]. apply Forall_app. split; [done|]. constructor; [|done].
      unfold row_faithful, row_key. cbn [user paper_id review_type section
        point_index point_text rating].
      rewrite decide_True by done. split_and!; try done. by rewrite Hsum. }
    pose proof (rate_sections_faithful r _ Hr Hst1) as Hst2.
    destruct (rate_sections _ _ _ _ _ _ _) as [records2 valid2].
    cbn [fst snd] in *. destruct valid2; cbn [negb].
    + by apply IH.
    + by intros [= <- _].
Qed.

End SubmitInvariant.

Section SubmitProperties.

Variable clock : nat → str.
Variable current_user_id : str.
Variable selected_paper_id : str.
Variable ss : gmap str pyval.

Local Abbreviation submit_run := (submit clock current_user_id selected_paper_id ss).
Local Abbreviation fully_rated r x y :=
  (all_rated ss (expected_keys selected_paper_id r (parsed_sub x y r))).
Local Abbreviation summary_unrated r :=
  (unrated (session_get ss (summary_key selected_paper_id r))).

(** X20.  A run of the submit block ends in exactly one of three ways: it
    raises [IndexError]; or some expected control is unrated, the log is
    left as it was and the incompleteness message is shown; or every
    expected control of both variants is rated and the expected rows — 5_3
    first, then 5_5 — are appended in one batch, with the success message.
    No run writes a part of the rows. *)
Theorem submit_outcomes (x y : json) (log : option (list row)) :
  submit_run x y log = inl IndexError ∨
  (fully_rated V5_3 x y && fully_rated V5_5 x y = false ∧
   ∃ text, submit_run x y log = inr (log, Error text)) ∨
  (fully_rated V5_3 x y = true ∧ fully_rated V5_5 x y = true ∧
   ∃ rows text,
     submit_run x y log = inr (save_results rows log, Success text) ∧
     row_place <$> rows =
       expected_places V5_3 (parsed_sub x y V5_3)
       ++ expected_places V5_5 (parsed_sub x y V5_5)).
Proof.
  unfold submit.
  destruct (rate_variants _ _ _ _ _ _ _ _) as [[]|[records valid]] eqn:Hloop;
    [by left|right].
  pose proof (rate_variants_valid _ _ _ _ _ _ _ _ _ _ Hloop) as Hvalid.
  cbn [forallb snd] in Hvalid. rewrite andb_true_l, andb_true_r in Hvalid.
  destruct valid.
  - right. symmetry in Hvalid. apply andb_true_iff in Hvalid as [H53 H55].
    apply rate_variants_rows in Hloop as (rows & -> & Hplaces).
    split_and!; [done..|]. exists rows. eexists. split; [done|].
    rewrite Hplaces. cbn [flat_map]. by rewrite app_nil_r.
  - left. split; [done|]. by eexists.
Qed.

(** X21.  The submit block raises [IndexError] exactly when it reaches a
    variant whose Summary control is rated and whose parsed Summary list is
    empty: 5_3, or 5_5 after a fully rated 5_3 with a Summary entry. *)
Theorem submit_raises_iff (x y : json) (log : option (list row)) :
  submit_run x y log = inl IndexError ↔
  (summary_unrated V5_3 = false ∧
   sections_get (parsed_sub x y V5_3) SUMMARY [] = []) ∨
  (fully_rated V5_3 x y = true ∧
   sections_get (parsed_sub x y V5_3) SUMMARY [] ≠ [] ∧
   summary_unrated V5_5 = false ∧
   sections_get (parsed_sub x y V5_5) SUMMARY [] = []).
Proof.
  unfold submit. rewrite rate_variants_step, all_rated_expected.
  destruct (summary_unrated V5_3) eqn:Hu3.
  { split; [done|]. intros [[? _]|[? _]]; done. }
  destruct (sections_get (parsed_sub x y V5_3) SUMMARY []) as [|t3 l3] eqn:Hs3.
  { split; [by left|done]. }
  cbn zeta.
  match goal with
  | |- context [rate_sections _ _ _ _ _ _ ?st1] =>
      pose proof (rate_sections_valid clock current_user_id selected_paper_id
                    ss V5_3 (parsed_sub x y V5_3) st1) as Hv;
      destruct (rate_sections clock current_user_id selected_paper_id
                  ss V5_3 (parsed_sub x y V5_3) st1) as [records2 valid2]
  end.
  cbn [fst snd negb andb] in Hv. rewrite <-Hv. destruct valid2; cbn [negb].
  - rewrite rate_variants_step.
    destruct (summary_unrated V5_5) eqn:Hu5.
    { split; [done|]. intros [[_ ?]|(_ & _ & ? & _)]; done. }
    destruct (sections_get (parsed_sub x y V5_5) SUMMARY []) as [|t5 l5] eqn:Hs5.
    { split; [|done]. intros _. right. by split_and!. }
    cbn zeta.
    destruct (rate_sections _ _ _ _ _ _ _) as [records3 [|]]; cbn [negb snd];
      cbn [rate_variants];
      (split; [done|]); intros [[_ ?]|(_ & _ & _ & ?)]; done.
  - split; [done|]. intros [[_ ?]|(? & _)]; done.
Qed.

End SubmitProperties.

Section WrittenRows.

Variable clock : nat → str.
Variable current_user_id : str.
Variable selected_paper_id : str.
Variable ss : gmap str pyval.

Local Abbreviation submit_here := (submit clock current_user_id selected_paper_id ss).

Lemma rate_variants_both_faithful (x y : json) records valid :
  rate_variants clock current_user_id selected_paper_id ss [V5_3; V5_5] x y
    ([], true) = inr (records, valid) →
  Forall (row_faithful ss x y current_user_id selected_paper_id) records.
Proof.
  intros Hloop. eapply rate_variants_faithful; [| |exact Hloop]; [|done].
  repeat constructor.
Qed.

(** X22.  Every row of a successful submission is faithful: it carries the
    user and the paper of the run and one of the two variants, its rating
    is the value held by its own control, a value the submit block accepts
    (never the sentinel), and its text is the parsed entry at its section
    and index. *)
Theorem submit_rows_faithful (x y : json) (log log' : option (list row)) text :
  submit_here x y log = inr (log', Success text) →
  ∃ rows,
    log' = save_results rows log ∧
    Forall (row_faithful ss x y current_user_id selected_paper_id) rows.
Proof.
  unfold submit.
  destruct (rate_variants _ _ _ _ _ _ _ _) as [[]|[records valid]] eqn:Hloop;
    [done|].
  destruct valid; [|done]. intros [= <- _]. exists records. split; [done|].
  by eapply rate_variants_both_faithful.
Qed.

(** The expected keys of a variant are the keys of its expected places. *)
Lemma expected_keys_places (pid r : str) (parsed : gmap str (list str)) :
  expected_keys pid r parsed = place_key pid <$> expected_places r parsed.
Proof.
  unfold expected_keys, expected_places, section_keys, section_places.
  rewrite fmap_cons. f_equal. cbn [flat_map].
  rewrite !fmap_app, !point_keys_from_seq, <-!list_fmap_compose.
  by rewrite !app_nil_r.
Qed.

(** X23.  When every control the submit block expects, of either variant,
    holds nothing or one of the options of the rating menu, every rating
    written by a successful submission is one of the four agreement
    levels.  Nothing is asked of the other keys of the session state, such
    as the order key of the paper. *)
Theorem submit_ratings_are_levels (x y : json) (log log' : option (list row))
    text :
  Forall (λ key, session_get ss key ∈ PNone :: (PStr <$> GRADING_OPTIONS))
    (expected_keys selected_paper_id V5_3 (parsed_sub x y V5_3)
     ++ expected_keys selected_paper_id V5_5 (parsed_sub x y V5_5)) →
  submit_here x y log = inr (log', Success text) →
  ∃ rows,
    log' = save_results rows log ∧
    Forall (λ rw, rating rw ∈ agreement_levels) rows.
Proof.
  intros Hmenu. unfold submit.
  destruct (rate_variants _ _ _ _ _ _ _ _) as [[]|[records valid]] eqn:Hloop;
    [done|].
  destruct valid; [|done]. intros [= <- _]. exists records. split; [done|].
  pose proof (rate_variants_both_faithful _ _ _ _ Hloop) as Hfaithful.
  apply rate_variants_rows in Hloop as (rows & -> & Hplaces).
  cbn [fst app flat_map] in *. rewrite app_nil_r in Hplaces.
  rewrite !expected_keys_places, <-fmap_app, <-Hplaces in Hmenu.
  rewrite <-list_fmap_compose, Forall_fmap in Hmenu.
  rewrite Forall_forall in Hmenu, Hfaithful. apply Forall_forall.
  intros rw Hrw.
  destruct (Hfaithful rw Hrw) as (_ & Hpaper & _ & Hrating & Hrated & _).
  apply rated_is_agreement_level; [|done]. rewrite Hrating.
  specialize (Hmenu rw Hrw). cbn [compose] in Hmenu.
  unfold row_key. unfold place_key, row_place in Hmenu. cbn [fst snd] in Hmenu.
  by rewrite Hpaper.
Qed.

(** X24.  The log is append-only under the submit block: whatever the
    outcome, the rows of an existing log are kept, in place, at the head of
    the log the run leaves behind. *)
Theorem submit_log_append_only (x y : json) (rows0 : list row) :
  ∃ rows, log_after (submit_here x y (Some rows0)) (Some rows0)
            = Some (rows0 ++ rows).
Proof.
  unfold submit.
  destruct (rate_variants _ _ _ _ _ _ _ _) as [[]|[records [|]]].
  - exists []. by rewrite app_nil_r.
  - by exists records.
  - exists []. by rewrite app_nil_r.
Qed.

End WrittenRows.

(** X22 on a complete session: the review of the specification as 5_3, an
    absent 5_5 payload, a log that does not exist yet. *)
Lemma submit_rows_faithful_witness :
  ∃ rows,
    log_after
      (submit noon (lit "u1") (lit "p7") session_complete
         (JStr example_text) JNone None) None
    = save_results rows None ∧
    Forall (row_faithful session_complete (JStr example_text) JNone
              (lit "u1") (lit "p7")) rows.
Proof.
  apply (submit_rows_faithful noon (lit "u1") (lit "p7") session_complete
           (JStr example_text) JNone None _ (lit "Saved successfully!")).
  vm_compute. reflexivity.
Defined.

(** X23 on the same session once the order of the paper is bound, as the
    submit block finds it. *)
Lemma submit_ratings_are_levels_witness :
  ∃ rows,
    log_after
      (submit noon (lit "u1") (lit "p7") session_complete_bound
         (JStr example_text) JNone None) None
    = save_results rows None ∧
    Forall (λ rw, rating rw ∈ agreement_levels) rows.
Proof.
  apply (submit_ratings_are_levels noon (lit "u1") (lit "p7")
           session_complete_bound (JStr example_text) JNone None _
           (lit "Saved successfully!")).
  - vm_compute. repeat constructor.
  - vm_compute. reflexivity.
Defined.

Section SubmitAndOrder.

Variable clock : nat → str.
Variable current_user_id : str.
Variable selected_paper_id : str.
Variables ss ss' : gmap str pyval.

(** The two session states hold the same values under the keys of the
    controls of the paper. *)
Hypothesis same_summaries : ∀ r : str,
  session_get ss' (summary_key selected_paper_id r) =
  session_get ss (summary_key selected_paper_id r).
Hypothesis same_points : ∀ (r sec : str) (i : nat),
  sec ∈ [STRENGTHS; WEAKNESSES; QUESTIONS] →
  session_get ss' (point_key selected_paper_id r sec i) =
  session_get ss (point_key selected_paper_id r sec i).

Lemma rate_points_same (r sec : str) i points st :
  sec ∈ [STRENGTHS; WEAKNESSES; QUESTIONS] →
  rate_points clock current_user_id selected_paper_id ss' r sec i points st =
  rate_points clock current_user_id selected_paper_id ss r sec i points st.
Proof.
  intros Hsec. revert i st. induction points as [|txt points IH]; intros i st;
    [done|].
  cbn [rate_points]. rewrite same_points by done. by rewrite IH.
Qed.

Lemma rate_sections_same (r : str) parsed st :
  rate_sections clock current_user_id selected_paper_id ss' r parsed st =
  rate_sections clock current_user_id selected_paper_id ss r parsed st.
Proof.
  unfold rate_sections. cbn [foldl].
  rewrite !rate_points_same; [done|set_solver..].
Qed.

Lemma rate_variants_same r_types (x y : json) st :
  rate_variants clock current_user_id selected_paper_id ss' r_types x y st =
  rate_variants clock current_user_id selected_paper_id ss r_types x y st.
Proof.
  revert st. induction r_types as [|r r_types IH]; intros st; [done|].
  rewrite !rate_variants_step, same_summaries.
  destruct (unrated _); [done|].
  destruct (sections_get _ SUMMARY []); [done|].
  cbn zeta. rewrite rate_sections_same. destruct (negb _); [done|]. apply IH.
Qed.

Lemma submit_same (x y : json) log :
  submit clock current_user_id selected_paper_id ss' x y log =
  submit clock current_user_id selected_paper_id ss x y log.
Proof. unfold submit. by rewrite rate_variants_same. Qed.

End SubmitAndOrder.

(** X25.  Validation does not depend on the display order: the submit block
    of a paper gives the same outcome whatever is bound under the order key
    of that paper. *)
Theorem submit_ignores_order (clock : nat → str) (current_user_id : str)
    (selected_paper_id : str) (ss : gmap str pyval) (order : pyval)
    (x y : json) (log : option (list row)) :
  submit clock current_user_id selected_paper_id
    (<[session_key selected_paper_id := order]> ss) x y log =
  submit clock current_user_id selected_paper_id ss x y log.
Proof.
  apply submit_same.
  - intros r. unfold session_get. rewrite lookup_insert_ne; [done|].
    intros Heq%(f_equal length). unfold session_key in Heq.
    rewrite length_lit_app, length_summary_key in Heq.
    cbn [String.length] in Heq. lia.
  - intros r sec i Hsec. unfold session_get. rewrite lookup_insert_ne; [done|].
    intros Heq%(f_equal length). unfold session_key in Heq.
    rewrite length_lit_app in Heq. cbn [String.length] in Heq.
    pose proof (length_point_key selected_paper_id r sec i) as Hlen.
    assert (9 ≤ length sec); [|lia].
    repeat (apply elem_of_cons in Hsec as [->|Hsec]);
      [vm_compute; lia..|].
    by apply elem_of_nil in Hsec.
Qed.

(** X26.  For a payload that is neither a dict nor a string — an absent
    payload, a number, a list — the form is rendered from a review with
    four empty sections, while the submit block works from the placeholder
    review, whose Summary is "Review not available.". *)
Theorem other_payload_parses (raw : json) :
  is_other raw →
  parse_review (render_text raw) =
    {[ SUMMARY := []; STRENGTHS := []; WEAKNESSES := []; QUESTIONS := [] ]} ∧
  parse_review (submit_text raw) =
    {[ SUMMARY := [PLACEHOLDER]; STRENGTHS := []; WEAKNESSES := [];
       QUESTIONS := [] ]}.
Proof. destruct raw; intros []; split; reflexivity. Qed.

(** X26 on a list payload. *)
Lemma other_payload_parses_witness :
  parse_review (render_text (JList [JInt 1])) =
    {[ SUMMARY := []; STRENGTHS := []; WEAKNESSES := []; QUESTIONS := [] ]} ∧
  parse_review (submit_text (JList [JInt 1])) =
    {[ SUMMARY := [PLACEHOLDER]; STRENGTHS := []; WEAKNESSES := [];
       QUESTIONS := [] ]}.
Proof. apply other_payload_parses. exact I. Defined.

(** ** Loading the data *)

Section LoadProperties.

Variable table : Type.
Variable empty_table : table.
Variable path_exists : path → bool.
Variable read_csv : path → str + table.
Variable strip_columns : table → str + table.
Variable load_json : path → str + gmap str json.

Local Abbreviation load_now :=
  (load_global_data table empty_table path_exists read_csv strip_columns load_json).
Local Abbreviation content := (file_content path_exists load_json).
Local Abbreviation read_dataset := (load_dataset path_exists load_json).
Local Abbreviation read_table := (load_table table path_exists read_csv strip_columns).

Lemma load_dataset_cases (file : path) :
  read_dataset file ∅ = (content file, None) ∨
  ∃ e, read_dataset file ∅ = (∅, Some e) ∧ content file = ∅.
Proof.
  unfold load_dataset, file_content.
  destruct (path_exists file); [|by left].
  destruct (load_json file) as [e|d]; [right; by exists e|by left].
Qed.

(** The outcome of the loader, by the first statement that raises. *)
Lemma load_global_data_cases :
  ∃ df1 df2 d1 d2 d3 d4 msgs,
    load_now =
      (Loaded table df1 df2 (DataStore (Collection d1 d2) (Collection d3 d4)),
       msgs) ∧
    ((msgs = [] ∧ d1 = content p_c_53 ∧ d2 = content p_c_55 ∧
      d3 = content p_n_53 ∧ d4 = content p_n_55) ∨
     (∃ e, msgs = [Error (lit "Critical Error loading data: " ++ e)] ∧
           d4 = ∅ ∧
           (d1 = ∅ ∨ d1 = content p_c_53) ∧ (d2 = ∅ ∨ d2 = content p_c_55) ∧
           (d3 = ∅ ∨ d3 = content p_n_53))).
Proof.
  unfold load_global_data, load_steps.
  cbn [run_try users mapping datasets colm neurips v5_3 v5_5].
  destruct (read_table USER_CSV empty_table) as [df1 [e|]];
    [eexists _, _, _, _, _, _, _; split; [reflexivity|];
     right; eexists; split_and!; eauto|].
  cbn [run_try users mapping datasets colm neurips v5_3 v5_5].
  destruct (read_table MAPPING_CSV empty_table) as [df2 [e|]];
    [eexists _, _, _, _, _, _, _; split; [reflexivity|];
     right; eexists; split_and!; eauto|].
  cbn [run_try users mapping datasets colm neurips v5_3 v5_5].
  destruct (load_dataset_cases p_c_53) as [->|(e & -> & H1)];
    [|eexists _, _, _, _, _, _, _; split; [reflexivity|];
      right; eexists; split_and!; eauto].
  cbn [run_try users mapping datasets colm neurips v5_3 v5_5].
  destruct (load_dataset_cases p_c_55) as [->|(e & -> & H2)];
    [|eexists _, _, _, _, _, _, _; split; [reflexivity|];
      right; eexists; split_and!; eauto].
  cbn [run_try users mapping datasets colm neurips v5_3 v5_5].
  destruct (load_dataset_cases p_n_53) as [->|(e & -> & H3)];
    [|eexists _, _, _, _, _, _, _; split; [reflexivity|];
      right; eexists; split_and!; eauto].
  cbn [run_try users mapping datasets colm neurips v5_3 v5_5].
  destruct (load_dataset_cases p_n_55) as [->|(e & -> & H4)];
    [|eexists _, _, _, _, _, _, _; split; [reflexivity|];
      right; eexists; split_and!; eauto].
  eexists _, _, _, _, _, _, _. split; [reflexivity|]. by left.
Qed.

(** X27.  When the loader shows no message, each of the four datasets is
    the content of its file, and empty for a missing file. *)
Theorem load_global_data_complete :
  load_now.2 = [] →
  datasets table load_now.1 =
    DataStore (Collection (content p_c_53) (content p_c_55))
              (Collection (content p_n_53) (content p_n_55)).
Proof.
  destruct load_global_data_cases
    as (df1 & df2 & d1 & d2 & d3 & d4 & msgs & -> & Hcases).
  cbn [fst snd datasets]. intros ->.
  destruct Hcases as [(_ & -> & -> & -> & ->)|(e & [=] & _)]. done.
Qed.

(** X28.  The loader shows at most one message, also when files fail; a dataset
    it returns is empty or the content of its own file; and when a message
    is shown the dataset read last, NeurIPS 5_5, is empty. *)
Theorem load_global_data_partial :
  length load_now.2 ≤ 1 ∧
  Forall (λ '(dataset, file), dataset = ∅ ∨ dataset = content file)
    [(v5_3 (colm (datasets table load_now.1)), p_c_53);
     (v5_5 (colm (datasets table load_now.1)), p_c_55);
     (v5_3 (neurips (datasets table load_now.1)), p_n_53);
     (v5_5 (neurips (datasets table load_now.1)), p_n_55)] ∧
  (load_now.2 = [] ∨ v5_5 (neurips (datasets table load_now.1)) = ∅).
Proof.
  destruct load_global_data_cases
    as (df1 & df2 & d1 & d2 & d3 & d4 & msgs & -> & Hcases).
  cbn [fst snd datasets colm neurips v5_3 v5_5].
  destruct Hcases as [(-> & -> & -> & -> & ->)|(e & -> & -> & H1 & H2 & H3)].
  - split_and!; [simpl; lia| |by left].
    repeat apply Forall_cons_2; [..|apply Forall_nil_2]; by right.
  - split_and!; [simpl; lia| |by right].
    repeat apply Forall_cons_2; [..|apply Forall_nil_2]; auto.
Qed.

(** X29.  When user.csv exists and reading it, or stripping its column
    names, raises, the loader shows the message of that exception and reads
    no dataset: every paper id is then "not found", whatever the JSON files
    hold. *)
Theorem load_global_data_broken_users (e : str) :
  path_exists USER_CSV = true →
  read_csv USER_CSV = inl e ∨
    (∃ df, read_csv USER_CSV = inr df ∧ strip_columns df = inl e) →
  load_now.2 = [Error (lit "Critical Error loading data: " ++ e)] ∧
  ∀ paper_id,
    get_paper_details paper_id (datasets table load_now.1)
      = (None, JNone, JNone, None).
Proof.
  intros Hexists Hraise.
  assert (∃ df, read_table USER_CSV empty_table = (df, Some e)) as [df Hread].
  { unfold load_table. rewrite Hexists.
    destruct Hraise as [->|(df & -> & ->)]; eauto. }
  unfold load_global_data, load_steps.
  cbn [run_try users mapping datasets colm neurips v5_3 v5_5]. rewrite Hread.
  cbn [fst snd datasets]. split; [done|]. intros paper_id.
  unfold get_paper_details, py_in. cbn [colm neurips v5_3 v5_5].
  rewrite !lookup_empty.
  rewrite !bool_decide_eq_false_2 by (by intros [? ?]). done.
Qed.

End LoadProperties.

(** X27 with the COLM 5_3 file as the only file. *)
Lemma load_global_data_complete_witness :
  datasets unit
    (load_global_data unit () (λ file, bool_decide (file = p_c_53))
       (λ _, inr ()) (λ df, inr df)
       (λ _, inr {[ lit "p7" := JStr example_text ]})).1 =
    DataStore (Collection {[ lit "p7" := JStr example_text ]} ∅) (Collection ∅ ∅).
Proof.
  etrans.
  - apply (load_global_data_complete unit () (λ file, bool_decide (file = p_c_53))
             (λ _, inr ()) (λ df, inr df)
             (λ _, inr {[ lit "p7" := JStr example_text ]})).
    reflexivity.
  - vm_compute. reflexivity.
Defined.

(** X29 with a user.csv that pandas cannot parse. *)
Lemma load_global_data_broken_users_witness :
  get_paper_details (lit "p7")
    (datasets unit
       (load_global_data unit () (λ _, true)
          (λ _, inl (lit "ParserError")) (λ df, inr df)
          (λ _, inr {[ lit "p7" := JStr example_text ]})).1)
    = (None, JNone, JNone, None).
Proof.
  refine (proj2 (load_global_data_broken_users unit () (λ _, true)
                   (λ _, inl (lit "ParserError")) (λ df, inr df)
                   (λ _, inr {[ lit "p7" := JStr example_text ]})
                   (lit "ParserError") _ _) (lit "p7")).
  - reflexivity.
  - left. reflexivity.
Defined.

(** ** Blindness of the form and of the submit messages *)

Section Blindness.

Lemma all_rated_slot_values (ss : gmap str pyval) (pid r : str)
    (parsed : gmap str (list str)) :
  all_rated ss (expected_keys pid r parsed) =
    forallb (λ v, negb (unrated v)) (slot_values ss pid r parsed).
Proof.
  unfold all_rated, slot_values.
  induction (expected_keys pid r parsed) as [|key keys IH]; [done|].
  rewrite fmap_cons. cbn [forallb]. by rewrite IH.
Qed.

(** C6, the claim as stated fails, twice.  The keys of the controls name
    the variant: the form of a paper under one binding differs from the
    form that shows the same reviews in the same slots under the other.
    And what is shown after Submit depends on the binding: with the same
    reviews in the same slots and the same rating in every control of
    either slot, the run ends with [IndexError] when slot A is bound to 5_3
    and with the incompleteness message when it is bound to 5_5. *)
Lemma binding_shows_in_keys_and_submit :
  render_form (lit "p7") [V5_3; V5_5]
    (JStr example_text) (JStr (lit "**Summary** Fine."))
  ≠ render_form (lit "p7") [V5_5; V5_3]
      (JStr (lit "**Summary** Fine.")) (JStr example_text)
  ∧
  (displayed
     (render_form (lit "p7") [V5_3; V5_5] unsectioned_review (JStr example_text))
   = displayed
       (render_form (lit "p7") [V5_5; V5_3] (JStr example_text) unsectioned_review)
   ∧ slot_values session_summary_only (lit "p7") V5_3
       (parsed_sub unsectioned_review (JStr example_text) V5_3)
     = slot_values session_summary_only_swapped (lit "p7") V5_5
         (parsed_sub (JStr example_text) unsectioned_review V5_5)
   ∧ slot_values session_summary_only (lit "p7") V5_5
       (parsed_sub unsectioned_review (JStr example_text) V5_5)
     = slot_values session_summary_only_swapped (lit "p7") V5_3
         (parsed_sub (JStr example_text) unsectioned_review V5_3)
   ∧ message_of
       (submit noon (lit "u1") (lit "p7") session_summary_only
          unsectioned_review (JStr example_text) None) = None
   ∧ message_of
       (submit noon (lit "u1") (lit "p7") session_summary_only_swapped
          (JStr example_text) unsectioned_review None)
     = Some (Error (lit "Please ensure all fields (Summary and Points) are rated for both Review sets."))).
Proof.
  split; [exact widget_keys_name_variant|].
  split_and!; vm_compute; reflexivity.
Qed.

(** C6, amended.  For every paper and both slot assignments, showing
    review [x] in slot A and [y] in slot B displays the same form — tab
    labels, texts, control labels and options — whether A is bound to 5_3
    or to 5_5, whatever the session holds; and when the controls of either
    slot hold the same ratings under both bindings, two runs of the submit
    block that each end with a message show the same message.  The keys of
    the controls, built from the variant identifier, and the runs that raise
    are left out. *)
Theorem binding_not_displayed (selected_paper_id : str) (x y : json)
    (clock1 clock2 : nat → str) (user1 user2 : str)
    (ss1 ss2 : gmap str pyval) (log1 log2 : option (list row)) :
  displayed (render_form selected_paper_id [V5_3; V5_5] x y) =
    displayed (render_form selected_paper_id [V5_5; V5_3] y x) ∧
  (slot_values ss1 selected_paper_id V5_3 (parsed_sub x y V5_3) =
     slot_values ss2 selected_paper_id V5_5 (parsed_sub y x V5_5) →
   slot_values ss1 selected_paper_id V5_5 (parsed_sub x y V5_5) =
     slot_values ss2 selected_paper_id V5_3 (parsed_sub y x V5_3) →
   message_of (submit clock1 user1 selected_paper_id ss1 x y log1) ≠ None →
   message_of (submit clock2 user2 selected_paper_id ss2 y x log2) ≠ None →
   message_of (submit clock1 user1 selected_paper_id ss1 x y log1) =
     message_of (submit clock2 user2 selected_paper_id ss2 y x log2)).
Proof.
  split; [apply displayed_form_blind|]. intros HslotA HslotB.
  unfold submit.
  destruct (rate_variants clock1 _ _ ss1 _ x y _) as [[]|[records1 valid1]]
    eqn:Hloop1; [done|].
  destruct (rate_variants clock2 _ _ ss2 _ y x _) as [[]|[records2 valid2]]
    eqn:Hloop2; [done|].
  intros _ _.
  apply rate_variants_valid in Hloop1, Hloop2.
  cbn [forallb snd] in Hloop1, Hloop2.
  rewrite andb_true_l, andb_true_r, !all_rated_slot_values in Hloop1, Hloop2.
  rewrite HslotA, HslotB in Hloop1.
  assert (valid1 = valid2) as -> by (subst; apply andb_comm).
  by destruct valid2.
Qed.

(** C6, amended, on a complete submission: the review of the specification
    in slot A, an absent payload in slot B, the same ratings in both
    slots under both bindings. *)
Lemma binding_not_displayed_witness :
  message_of
    (submit noon (lit "u1") (lit "p7") session_complete
       (JStr example_text) JNone None)
  = message_of
      (submit noon (lit "u1") (lit "p7") session_complete_swapped
         JNone (JStr example_text) None).
Proof.
  refine (proj2 (binding_not_displayed (lit "p7") (JStr example_text) JNone
                   noon noon (lit "u1") (lit "u1")
                   session_complete session_complete_swapped None None)
            _ _ _ _).
  - vm_compute. reflexivity.
  - vm_compute. reflexivity.
  - vm_compute. discriminate.
  - vm_compute. discriminate.
Defined.

End Blindness.
